(** * The marker-based patch script [temp_replace.py]

    The script reads [client/pages/Index.tsx], looks for a start marker and,
    from there on, for an end marker (both with [str.find]), and writes the
    file back with the span between them replaced by a shorter block.  This
    development embeds the script twice: its string computation as a pure
    function ([replace_span], with the script's literals as arguments, and
    [new_content_of] at the script's own literals), and the whole module body
    as a program in a small state-and-exception monad over the module globals,
    the file system and standard output ([script]).  [script_run] relates the
    two. *)

From Stdlib Require Import Ascii.
From stdpp Require Import base numbers list strings gmap.

Local Open Scope Z_scope.

(** ** Python strings *)

(** A Python [str] is a sequence of Unicode code points. *)
Definition char : Type := N.
Abbreviation str := (list char).

(** String literals.  A Rocq string cannot hold the double quote, so a
    literal is written with a backquote wherever the source has a double
    quote (no literal of the script contains a backquote); [lit] maps it back
    to code point 34. *)
Definition char_of_ascii (a : ascii) : char :=
  let c := N_of_ascii a in if (c =? 96)%N then 34%N else c.

Definition lit (s : string) : str :=
  char_of_ascii <$> String.list_ascii_of_string s.

(** A literal that spans several source lines: the lines joined by the line
    feed (code point 10), nothing after the last one. *)
Fixpoint lines (ls : list string) : str :=
  match ls with
  | [] => []
  | [l] => lit l
  | l :: ls' => lit l ++ 10%N :: lines ls'
  end.

(** [len(s)] *)
Definition len (s : str) : Z := Z.of_nat (length s).

(** A slice bound [i] of Python, for a sequence of length [n]: a negative
    bound counts from the end, and every bound is clamped into [0..n]. *)
Definition clamp_index (n i : Z) : Z :=
  if i <? 0 then Z.max (i + n) 0 else Z.min i n.

(** [s[lo:hi]] *)
Definition slice (s : str) (lo hi : Z) : str :=
  let l := clamp_index (len s) lo in
  let h := clamp_index (len s) hi in
  take (Z.to_nat (h - l)) (drop (Z.to_nat l) s).

(** [s[:hi]] *)
Definition slice_to (s : str) (hi : Z) : str := slice s 0 hi.

(** [s[lo:]] *)
Definition slice_from (s : str) (lo : Z) : str := slice s lo (len s).

(** [s.startswith(sub)], the comparison [str.find] makes at each position. *)
Fixpoint starts_with (sub s : str) : bool :=
  match sub, s with
  | [], _ => true
  | _ :: _, [] => false
  | a :: sub', b :: s' => if (a =? b)%N then starts_with sub' s' else false
  end.

(** The scan of [str.find]: [s] is what is left of the string, [i] the index
    of its first character. *)
Fixpoint find_scan (sub s : str) (i : Z) : Z :=
  if starts_with sub s then i
  else match s with
       | [] => -1
       | _ :: s' => find_scan sub s' (i + 1)
       end.

(** [s.find(sub, start)]: the lowest index at or after [start] where [sub]
    occurs, [-1] when there is none.  A negative [start] counts from the end;
    a [start] beyond the end finds nothing, not even the empty string. *)
Definition find (s sub : str) (start : Z) : Z :=
  let st := if start <? 0 then Z.max (start + len s) 0 else start in
  if len s <? st then -1 else find_scan sub (drop (Z.to_nat st) s) st.

(** ** What the claims speak of: occurrences *)

(** [sub] occurs in [s] at index [i]: the exact characters of [sub], one for
    one, nothing interpreted. *)
Definition occurs_at (s sub : str) (i : Z) : Prop :=
  0 ≤ i ∧ i + len sub ≤ len s ∧ slice s i (i + len sub) = sub.

#[global] Instance occurs_at_dec s sub i : Decision (occurs_at s sub i).
Proof. unfold occurs_at. apply _. Defined.

(** [i] is the first occurrence of [sub] in [s] at or after [from]. *)
Definition first_occurrence (s sub : str) (from i : Z) : Prop :=
  from ≤ i ∧ occurs_at s sub i ∧ ∀ j, from ≤ j < i → ¬ occurs_at s sub j.

(** [sub] occurs nowhere in [s]. *)
Definition absent (s sub : str) : Prop := ∀ i, ¬ occurs_at s sub i.

(** ** The literals of the script *)

(** [old_pattern]: the raw triple-quoted literal of lines 9-85, backslashes
    kept as written (a raw string has no escapes). *)
Definition old_pattern : str := lines [
  "                    <div className=`relative flex-1 lg:max-w-xs w-full lg:w-auto`>";
  "                      <label className=`absolute -top-2 left-3 bg-white px-1 text-xs text-gray-600 font-medium z-10`>";
  "                        Going to";
  "                      </label>";
  "                      <button";
  "                        onClick=\{\(\) => setShowToCities\(!showToCities\)\}";
  "                        className=`flex items-center bg-white rounded border border-gray-300 px-3 py-2 h-12 w-full hover:border-blue-500 touch-manipulation`";
  "                      >";
  "                        <Plane className=`w-4 h-4 text-gray-500 mr-2` />";
  "                        <div className=`flex items-center space-x-2`>";
  "                          \{selectedToCity \? \(";
  "                            <>";
  "                              <div className=`bg-blue-600 text-white px-2 py-1 rounded text-xs font-bold`>";
  "                                \{cityData\[selectedToCity\]\?\.code\}";
  "                              </div>";
  "                              <span className=`text-sm text-gray-700 font-medium`>";
  "                                \{cityData\[selectedToCity\]\?\.airport\}";
  "                              </span>";
  "                            </>";
  "                          \) : \(";
  "                            <span className=`text-sm text-gray-500 font-medium`>";
  "                              Going to";
  "                            </span>";
  "                          \)\}";
  "                        </div>";
  "                      </button>";
  "";
  "                      \{showToCities && \(";
  "                        <div className=`absolute top-14 left-0 right-0 sm:right-auto bg-white border border-gray-200 rounded-lg shadow-xl p-3 sm:p-4 z-50 w-full sm:w-96 max-h-80 overflow-y-auto`>";
  "                          <div className=`mb-3`>";
  "                            <h3 className=`text-sm font-semibold text-gray-900 mb-2`>";
  "                              Airport, city or country";
  "                            </h3>";
  "                            <div className=`relative`>";
  "                              <input";
  "                                type=`text`";
  "                                placeholder=`Dubai`";
  "                                className=`w-full px-3 py-2 border border-gray-300 rounded focus:outline-none focus:border-blue-500 text-sm`";
  "                              />";
  "                            </div>";
  "                          </div>";
  "";
  "                          <div className=`space-y-1`>";
  "                            \{Object\.entries\(cityData\)\.map\(\(\[city, data\]\) => \(";
  "                              <button";
  "                                key=\{city\}";
  "                                onClick=\{\(\) => \{";
  "                                  setSelectedToCity\(city\);";
  "                                  setShowToCities\(false\);";
  "                                \}\}";
  "                                className=`w-full text-left px-3 py-3 hover:bg-gray-100 rounded`";
  "                              >";
  "                                <div className=`flex items-center space-x-3`>";
  "                                  <div className=`w-8 h-8 bg-blue-50 rounded-full flex items-center justify-center`>";
  "                                    <Plane className=`w-4 h-4 text-blue-600` />";
  "                                  </div>";
  "                                  <div>";
  "                                    <div className=`text-sm font-medium text-gray-900`>";
  "                                      <span className=`font-semibold`>";
  "                                        \{data\.code\}";
  "                                      </span>\{` `\}";
  "                                      [^{]+\{city\}";
  "                                    </div>";
  "                                    <div className=`text-xs text-gray-500`>";
  "                                      \{data\.airport\}";
  "                                    </div>";
  "                                    <div className=`text-xs text-gray-400`>";
  "                                      \{data\.fullName\}";
  "                                    </div>";
  "                                  </div>";
  "                                </div>";
  "                              </button>";
  "                            \)\)\}";
  "                          </div>";
  "                        </div>";
  "                      \)\}";
  "                    </div>"
].

(** [new_replacement], lines 87-97. *)
Definition new_replacement : str := lines [
  "                    <div className=`relative flex-1 lg:max-w-xs w-full lg:w-auto`>";
  "                      <CityAutocomplete";
  "                        label=`Going to`";
  "                        placeholder=`City or airport`";
  "                        value={toAirport}";
  "                        onChange={setToAirport}";
  "                        fetchOptions={searchAirportsWithFallback}";
  "                        icon={<Plane className=`w-4 h-4` />}";
  "                        className=`relative`";
  "                      />";
  "                    </div>"
].

(** [start_marker], lines 100-103. *)
Definition start_marker : str := lines [
  "                    <div className=`relative flex-1 lg:max-w-xs w-full lg:w-auto`>";
  "                      <label className=`absolute -top-2 left-3 bg-white px-1 text-xs text-gray-600 font-medium z-10`>";
  "                        Going to";
  "                      </label>"
].

(** [end_marker], lines 105-108; its third line is empty. *)
Definition end_marker : str := lines [
  "                      )}";
  "                    </div>";
  "";
  "                    <div className=`relative overflow-visible lg:max-w-[250px] w-full lg:w-auto`>"
].
(** The two literals whose lengths are added to [end_pos] (lines 122, 128):
    the first line of the end marker, and the line break, the closing
    [</div>] line and the line break after it. *)
Definition closing_literal : str := lit "                      )}".
Definition trailer_literal : str :=
  10%N :: lit "                    </div>" ++ [10%N].

(** The count of characters removed from [end_pos] on. *)
Definition trailer_len : Z := len closing_literal + len trailer_literal.

Definition msg_start_not_found : str := lit "Start marker not found".
Definition msg_end_not_found : str := lit "End marker not found".
Definition msg_found : str := lit "Found content to replace:".
Definition msg_completed : str := lit "Replacement completed successfully!".

Definition path : string := "client/pages/Index.tsx".

(** ** The string computation *)

(** The three ways the script ends once the file is read. *)
Inductive outcome :=
  | StartMarkerNotFound
  | EndMarkerNotFound
  | Replaced (new_content : str).

#[global] Instance outcome_eq_dec : EqDecision outcome.
Proof. solve_decision. Defined.

(** Lines 111-128 with the literals as arguments: the two markers, the
    replacement, and the two literals whose lengths are added to [end_pos]. *)
Definition replace_span
    (content start_marker end_marker new_replacement lit_a lit_b : str)
    : outcome :=
  let start_pos := find content start_marker 0 in
  if start_pos =? -1 then StartMarkerNotFound else
  let end_pos := find content end_marker start_pos in
  if end_pos =? -1 then EndMarkerNotFound else
  Replaced (slice_to content start_pos ++ new_replacement
            ++ slice_from content (end_pos + len lit_a + len lit_b)).

(** The script's own instance. *)
Definition new_content_of (content : str) : outcome :=
  replace_span content start_marker end_marker new_replacement
    closing_literal trailer_literal.

(** [old_content], line 122: only its first 200 characters are shown. *)
Definition old_content_of (content : str) : str :=
  let start_pos := find content start_marker 0 in
  let end_pos := find content end_marker start_pos in
  slice content start_pos (end_pos + len closing_literal).

(** ** The module body as a program *)

(** What a module-level name can be bound to. *)
Inductive value :=
  | VStr (s : str)
  | VInt (n : Z)
  | VModule (name : string)
  | VFile (file_path : string).

Inductive exn :=
  | FileNotFoundError (file_path : string)
  | NameError (name : string)
  | TypeError
  | SystemExit (code : Z).

(** The module globals, the files (already decoded), and the lines printed. *)
Record state := State {
  globals : gmap string value;
  files : gmap string str;
  stdout : list str
}.

Inductive res (A : Type) :=
  | Ok (a : A)
  | Raise (e : exn).
Arguments Ok {A} a.
Arguments Raise {A} e.

Definition M (A : Type) : Type := state → res A * state.

#[global] Instance M_ret : MRet M := λ A a st, (Ok a, st).

#[global] Instance M_bind : MBind M := λ A B k m st,
  match m st with
  | (Ok a, st') => k a st'
  | (Raise e, st') => (Raise e, st')
  end.

Definition raise {A} (e : exn) : M A := λ st, (Raise e, st).

(** The three updates of the state. *)
Definition set_global (x : string) (v : value) (st : state) : state :=
  State (<[x := v]> (globals st)) (files st) (stdout st).

Definition set_file (p : string) (c : str) (st : state) : state :=
  State (globals st) (<[p := c]> (files st)) (stdout st).

Definition put_line (s : str) (st : state) : state :=
  State (globals st) (files st) (stdout st ++ [s]).

(** [x = v] at module level. *)
Definition store (x : string) (v : value) : M unit := λ st,
  (Ok tt, set_global x v st).

(** Reading a module-level name. *)
Definition load (x : string) : M value := λ st,
  match globals st !! x with
  | Some v => (Ok v, st)
  | None => (Raise (NameError x), st)
  end.

Definition load_str (x : string) : M str :=
  v ← load x; match v with VStr s => mret s | _ => raise TypeError end.

Definition load_int (x : string) : M Z :=
  v ← load x; match v with VInt n => mret n | _ => raise TypeError end.

(** [import name] *)
Definition import_module (name : string) : M unit :=
  store name (VModule name).

(** [open(p, 'r')]: the file has to exist. *)
Definition open_r (p : string) : M value := λ st,
  match files st !! p with
  | Some _ => (Ok (VFile p), st)
  | None => (Raise (FileNotFoundError p), st)
  end.

(** [open(p, 'w')]: the file is created, or emptied when it exists. *)
Definition open_w (p : string) : M value := λ st,
  (Ok (VFile p), set_file p [] st).

(** [f.read()] from the start of the file. *)
Definition file_read (f : value) : M str := λ st,
  match f with
  | VFile p =>
      match files st !! p with
      | Some c => (Ok c, st)
      | None => (Raise (FileNotFoundError p), st)
      end
  | _ => (Raise TypeError, st)
  end.

(** [f.write(s)]: [s] goes after what the file holds. *)
Definition file_write (f : value) (s : str) : M unit := λ st,
  match f with
  | VFile p => (Ok tt, set_file p (default [] (files st !! p) ++ s) st)
  | _ => (Raise TypeError, st)
  end.

(** [print(s)] *)
Definition print (s : str) : M unit := λ st, (Ok tt, put_line s st).

(** [exit(code)] *)
Definition exit (code : Z) : M unit := raise (SystemExit code).

(** The status the process ends with. *)
Definition exit_status {A} (r : res A) : Z :=
  match r with
  | Ok _ => 0
  | Raise (SystemExit code) => code
  | Raise _ => 1
  end.

Section Script.

(** [repr] of a string is Python's own; the script only prints it. *)
Variable repr : str → str.

(** Line 2. *)
Definition stmt_import_re : M unit := import_module "re".

(** Lines 5-6. *)
Definition stmt_read : M unit :=
  f ← open_r path;
  store "f" f;;
  f ← load "f";
  c ← file_read f;
  store "content" (VStr c).

(** Lines 9-85. *)
Definition stmt_old_pattern : M unit :=
  store "old_pattern" (VStr old_pattern).

(** Lines 87-108. *)
Definition stmt_literals : M unit :=
  store "new_replacement" (VStr new_replacement);;
  store "start_marker" (VStr start_marker);;
  store "end_marker" (VStr end_marker).

(** Lines 111-114. *)
Definition stmt_find_start : M unit :=
  content ← load_str "content";
  sm ← load_str "start_marker";
  store "start_pos" (VInt (find content sm 0));;
  start_pos ← load_int "start_pos";
  if start_pos =? -1 then print msg_start_not_found;; exit 1 else mret tt.

(** Lines 116-119. *)
Definition stmt_find_end : M unit :=
  content ← load_str "content";
  em ← load_str "end_marker";
  start_pos ← load_int "start_pos";
  store "end_pos" (VInt (find content em start_pos));;
  end_pos ← load_int "end_pos";
  if end_pos =? -1 then print msg_end_not_found;; exit 1 else mret tt.

(** Lines 122-125. *)
Definition stmt_preview : M unit :=
  content ← load_str "content";
  start_pos ← load_int "start_pos";
  end_pos ← load_int "end_pos";
  store "old_content"
    (VStr (slice content start_pos (end_pos + len closing_literal)));;
  print msg_found;;
  old_content ← load_str "old_content";
  print (repr (slice_to old_content 200 ++ lit "...")).

(** Line 128. *)
Definition stmt_new_content : M unit :=
  content ← load_str "content";
  start_pos ← load_int "start_pos";
  new_replacement ← load_str "new_replacement";
  end_pos ← load_int "end_pos";
  store "new_content"
    (VStr (slice_to content start_pos ++ new_replacement
           ++ slice_from content
                (end_pos + len closing_literal + len trailer_literal))).

(** Lines 131-132. *)
Definition stmt_write : M unit :=
  f ← open_w path;
  store "f" f;;
  f ← load "f";
  new_content ← load_str "new_content";
  file_write f new_content.

(** Line 134. *)
Definition stmt_completed : M unit := print msg_completed.

(** Everything from line 87 on. *)
Definition marker_block : M unit :=
  stmt_literals;; stmt_find_start;; stmt_find_end;; stmt_preview;;
  stmt_new_content;; stmt_write;; stmt_completed.

(** The script. *)
Definition script : M unit :=
  stmt_import_re;; stmt_read;; stmt_old_pattern;; marker_block.

(** The script without line 2 and lines 9-85. *)
Definition script_without_pattern : M unit :=
  stmt_read;; marker_block.

End Script.

(** What of a run can be seen from outside: how it ended, the files, and
    what was printed. *)
Definition observable {A} (r : res A * state)
    : res A * gmap string str * list str :=
  (r.1, files r.2, stdout r.2).

(** What can be seen of a run that got as far as the marker search, from the
    files [fs] and the output [out] it started with; [preview] is the line
    printed for [old_content]. *)
Definition outcome_observable (o : outcome) (preview : str)
    (fs : gmap string str) (out : list str)
    : res unit * gmap string str * list str :=
  match o with
  | StartMarkerNotFound =>
      (Raise (SystemExit 1), fs, out ++ [msg_start_not_found])
  | EndMarkerNotFound =>
      (Raise (SystemExit 1), fs, out ++ [msg_end_not_found])
  | Replaced n =>
      (Ok tt, <[path := n]> fs, out ++ [msg_found; preview; msg_completed])
  end.

(** ** Documents and runs used as examples *)

(** The two markers, one right after the other. *)
Definition doc_two_markers : str := start_marker ++ end_marker.

(** Two marked blocks in a row. *)
Definition doc_two_blocks : str :=
  start_marker ++ lit "one" ++ end_marker
  ++ start_marker ++ lit "two" ++ end_marker.

(** The document of the third scenario of the specification. *)
Definition doc_scenario3 : str := lit "<s>one<e><s>two<e>".

(** A state in which the patched file holds [c] and nothing else exists. *)
Definition state_with (c : str) : state := State ∅ {[path := c]} [].

(** * Proofs *)

(** ** Lengths and slices *)

Lemma len_nonneg (s : str) : 0 ≤ len s.
Proof. unfold len. lia. Qed.

Lemma len_app (s t : str) : len (s ++ t) = len s + len t.
Proof. unfold len. rewrite length_app. lia. Qed.

Lemma clamp_index_in_range n i : 0 ≤ i ≤ n → clamp_index n i = i.
Proof. unfold clamp_index. intros H. destruct (Z.ltb_spec i 0); lia. Qed.

Lemma clamp_index_beyond n i : 0 ≤ n ≤ i → clamp_index n i = n.
Proof. unfold clamp_index. intros H. destruct (Z.ltb_spec i 0); lia. Qed.

(** A prefix slice with a bound that is an index is [take]. *)
Lemma slice_to_take (s : str) i :
  0 ≤ i → slice_to s i = take (Z.to_nat i) s.
Proof.
  intros Hi. unfold slice_to, slice.
  pose proof (len_nonneg s) as Hn.
  rewrite (clamp_index_in_range _ 0) by lia.
  change (drop (Z.to_nat 0) s) with s. rewrite Z.sub_0_r.
  destruct (Z.le_gt_cases i (len s)) as [Hle | Hgt].
  - by rewrite clamp_index_in_range by lia.
  - rewrite clamp_index_beyond by lia.
    unfold len in *. rewrite Nat2Z.id.
    rewrite (take_ge s (length s)) by lia.
    by rewrite take_ge by lia.
Qed.

(** A suffix slice from an index is [drop]; from the end on it is empty. *)
Lemma slice_from_drop (s : str) i :
  0 ≤ i → slice_from s i = drop (Z.to_nat i) s.
Proof.
  intros Hi. unfold slice_from, slice.
  pose proof (len_nonneg s) as Hn.
  rewrite (clamp_index_in_range _ (len s)) by lia.
  destruct (Z.le_gt_cases i (len s)) as [Hle | Hgt].
  - rewrite clamp_index_in_range by lia.
    apply take_ge. rewrite length_drop. unfold len in *. lia.
  - rewrite clamp_index_beyond by lia.
    unfold len in *. rewrite Z.sub_diag. simpl.
    symmetry. apply drop_ge. lia.
Qed.

Lemma slice_from_beyond (s : str) i : len s ≤ i → slice_from s i = [].
Proof.
  intros Hi. pose proof (len_nonneg s).
  rewrite slice_from_drop by lia. apply drop_ge. unfold len in *. lia.
Qed.

(** ** [str.find] *)

Lemma starts_with_prefix (sub s : str) :
  starts_with sub s = true ↔ sub `prefix_of` s.
Proof.
  revert s. induction sub as [| a sub IH]; intros [| b s]; simpl.
  - split; [intros _; apply prefix_nil | done].
  - split; [intros _; apply prefix_nil | done].
  - split; [done | intros H; by apply prefix_nil_not in H].
  - destruct (N.eqb_spec a b) as [-> | Hne].
    + rewrite IH. split; [apply prefix_cons | apply prefix_cons_inv_2].
    + split; [done | intros H; by apply prefix_cons_inv_1 in H].
Qed.

Lemma take_length_prefix (sub t : str) :
  take (length sub) t = sub ↔ sub `prefix_of` t.
Proof.
  split.
  - intros <-. apply prefix_take.
  - intros [k ->]. apply take_app_length.
Qed.

(** An occurrence at [i] is a prefix of what is left from [i] on. *)
Lemma occurs_at_prefix (s sub : str) i :
  occurs_at s sub i ↔
  0 ≤ i ≤ len s ∧ sub `prefix_of` drop (Z.to_nat i) s.
Proof.
  pose proof (len_nonneg s) as Hs. pose proof (len_nonneg sub) as Hsub.
  unfold occurs_at. split.
  - intros (Hi & Hle & Heq). split; [lia |].
    unfold slice in Heq.
    rewrite !clamp_index_in_range in Heq by lia.
    replace (Z.to_nat (i + len sub - i)) with (length sub) in Heq
      by (unfold len; lia).
    by apply take_length_prefix.
  - intros ([Hi Hle] & Hp).
    assert (i + len sub ≤ len s) as Hlen.
    { apply prefix_length in Hp. rewrite length_drop in Hp.
      unfold len in *. lia. }
    split; [done |]. split; [done |].
    unfold slice. rewrite !clamp_index_in_range by lia.
    replace (Z.to_nat (i + len sub - i)) with (length sub)
      by (unfold len; lia).
    by apply take_length_prefix.
Qed.

(** The scan stops at the first suffix that starts with [sub]. *)
Lemma find_scan_spec (sub t : str) i :
  0 ≤ i →
  (find_scan sub t i = -1 ∧
   ∀ k : nat, (k ≤ length t)%nat → ¬ sub `prefix_of` drop k t) ∨
  (∃ k : nat, find_scan sub t i = i + Z.of_nat k ∧ (k ≤ length t)%nat ∧
     sub `prefix_of` drop k t ∧
     ∀ k' : nat, (k' < k)%nat → ¬ sub `prefix_of` drop k' t).
Proof.
  revert i. induction t as [| b t IH]; intros i Hi.
  - simpl. destruct (starts_with sub []) eqn:Hsw.
    + right. exists 0%nat. apply starts_with_prefix in Hsw.
      repeat split; [lia | done | done | lia].
    + left. split; [done |]. intros k Hk Hp.
      destruct k; [| simpl in Hk; lia].
      apply starts_with_prefix in Hp. simpl in Hp. congruence.
  - cbn [find_scan]. destruct (starts_with sub (b :: t)) eqn:Hsw.
    + right. exists 0%nat. apply starts_with_prefix in Hsw.
      repeat split; [lia | simpl; lia | done | lia].
    + assert (¬ sub `prefix_of` b :: t) as Hno.
      { intros Hp. apply starts_with_prefix in Hp. congruence. }
      destruct (IH (i + 1)) as [[Heq Hall] | (k & Heq & Hk & Hp & Hmin)];
        [lia | |].
      * left. split; [done |]. intros [| k] Hk; [done |].
        simpl. apply Hall. simpl in Hk. lia.
      * right. exists (S k). repeat split.
        -- rewrite Heq. lia.
        -- simpl. lia.
        -- done.
        -- intros [| k'] Hk'; [done |]. simpl. apply Hmin. lia.
Qed.

(** [find] returns [-1] or an index of the string at or after [start]. *)
Lemma find_range (s sub : str) start :
  0 ≤ start →
  find s sub start = -1 ∨ start ≤ find s sub start ≤ len s.
Proof.
  intros Hst. unfold find.
  destruct (Z.ltb_spec start 0); [lia |].
  destruct (Z.ltb_spec (len s) start); [by left |].
  destruct (find_scan_spec sub (drop (Z.to_nat start) s) start Hst)
    as [[Heq _] | (k & Heq & Hk & _)]; [by left |].
  right. rewrite Heq. rewrite length_drop in Hk. unfold len in *. lia.
Qed.

(** A result other than [-1] is the first occurrence at or after [start]. *)
Lemma find_first (s sub : str) start :
  0 ≤ start → find s sub start ≠ -1 →
  first_occurrence s sub start (find s sub start).
Proof.
  intros Hst. unfold find.
  destruct (Z.ltb_spec start 0); [lia |].
  destruct (Z.ltb_spec (len s) start); [done |].
  destruct (find_scan_spec sub (drop (Z.to_nat start) s) start Hst)
    as [[Heq _] | (k & Heq & Hk & Hp & Hmin)]; [done |].
  intros _. rewrite Heq. rewrite length_drop in Hk.
  rewrite drop_drop in Hp.
  split; [lia |]. split.
  - apply occurs_at_prefix. split; [unfold len in *; lia |].
    by replace (Z.to_nat (start + Z.of_nat k))
      with (Z.to_nat start + k)%nat by lia.
  - intros j Hj Hocc. apply occurs_at_prefix in Hocc as [Hr Hpj].
    apply (Hmin (Z.to_nat (j - start))); [lia |].
    rewrite drop_drop.
    by replace (Z.to_nat start + Z.to_nat (j - start))%nat
      with (Z.to_nat j) by lia.
Qed.

(** [-1] means that nothing occurs at or after [start]. *)
Lemma find_none (s sub : str) start :
  0 ≤ start → find s sub start = -1 →
  ∀ j, start ≤ j → ¬ occurs_at s sub j.
Proof.
  intros Hst. unfold find.
  destruct (Z.ltb_spec start 0); [lia |].
  destruct (Z.ltb_spec (len s) start) as [Hlt | Hle].
  - intros _ j Hj Hocc. apply occurs_at_prefix in Hocc as [Hr _]. lia.
  - destruct (find_scan_spec sub (drop (Z.to_nat start) s) start Hst)
      as [[_ Hall] | (k & Heq & _)]; [| lia].
    intros _ j Hj Hocc. apply occurs_at_prefix in Hocc as [Hr Hpj].
    apply (Hall (Z.to_nat (j - start))).
    + rewrite length_drop. unfold len in *. lia.
    + rewrite drop_drop.
      by replace (Z.to_nat start + Z.to_nat (j - start))%nat
        with (Z.to_nat j) by lia.
Qed.

Lemma first_occurrence_unique (s sub : str) from i j :
  first_occurrence s sub from i → first_occurrence s sub from j → i = j.
Proof.
  intros (Hi & Hoi & Hmi) (Hj & Hoj & Hmj).
  destruct (Z.lt_trichotomy i j) as [Hlt | [-> | Hgt]]; [| done |].
  - exfalso. apply (Hmj i); [lia | done].
  - exfalso. apply (Hmi j); [lia | done].
Qed.

(** The first occurrence at or after [start] is what [find] returns. *)
Lemma first_occurrence_find (s sub : str) start i :
  0 ≤ start → first_occurrence s sub start i → find s sub start = i.
Proof.
  intros Hst Hfirst.
  destruct (Z.eq_dec (find s sub start) (-1)) as [Heq | Hne].
  - destruct Hfirst as (Hi & Hocc & _).
    exfalso. by apply (find_none s sub start Hst Heq i).
  - eapply first_occurrence_unique; [by apply find_first | done].
Qed.

Lemma absent_find (s sub : str) start :
  0 ≤ start → absent s sub → find s sub start = -1.
Proof.
  intros Hst Habs.
  destruct (Z.eq_dec (find s sub start) (-1)) as [Heq | Hne]; [done |].
  destruct (find_first s sub start Hst Hne) as (_ & Hocc & _).
  by apply Habs in Hocc.
Qed.

(** ** Running the module body *)

Lemma bind_ok {A B} (m : M A) (k : A → M B) st a st' :
  m st = (Ok a, st') → (m ≫= k) st = k a st'.
Proof. intros H. unfold mbind, M_bind. by rewrite H. Qed.

Lemma bind_raise {A B} (m : M A) (k : A → M B) st e st' :
  m st = (Raise e, st') → (m ≫= k) st = (Raise e, st').
Proof. intros H. unfold mbind, M_bind. by rewrite H. Qed.

Lemma load_ok x v st : globals st !! x = Some v → load x st = (Ok v, st).
Proof. intros H. unfold load. by rewrite H. Qed.

Lemma load_str_ok x s st :
  globals st !! x = Some (VStr s) → load_str x st = (Ok s, st).
Proof.
  intros H. unfold load_str. by rewrite (bind_ok _ _ _ _ _ (load_ok _ _ _ H)).
Qed.

Lemma load_int_ok x n st :
  globals st !! x = Some (VInt n) → load_int x st = (Ok n, st).
Proof.
  intros H. unfold load_int. by rewrite (bind_ok _ _ _ _ _ (load_ok _ _ _ H)).
Qed.

(** Looking a name up after a run of module-level assignments. *)
Ltac lookup_global :=
  cbn [globals set_global put_line set_file];
  repeat (rewrite lookup_insert_ne by done);
  first [apply lookup_insert_eq | eassumption].

(** One step of a statement: a load, a store or a print in front. *)
Ltac run_step :=
  first
    [ erewrite (bind_ok (load_str _)) by (apply load_str_ok; lookup_global)
    | erewrite (bind_ok (load_int _)) by (apply load_int_ok; lookup_global)
    | erewrite (bind_ok (load _)) by (apply load_ok; lookup_global)
    | erewrite (bind_ok (store _ _)) by reflexivity
    | erewrite (bind_ok (print _)) by reflexivity ].

Section ScriptRuns.

Variable repr : str → str.

Lemma stmt_literals_run st :
  stmt_literals st
  = (Ok tt, set_global "end_marker" (VStr end_marker)
              (set_global "start_marker" (VStr start_marker)
                 (set_global "new_replacement" (VStr new_replacement) st))).
Proof. done. Qed.

Lemma stmt_find_start_run st c :
  globals st !! "content" = Some (VStr c) →
  globals st !! "start_marker" = Some (VStr start_marker) →
  stmt_find_start st =
    let st' := set_global "start_pos" (VInt (find c start_marker 0)) st in
    if find c start_marker 0 =? -1
    then (Raise (SystemExit 1), put_line msg_start_not_found st')
    else (Ok tt, st').
Proof.
  intros Hc Hm. unfold stmt_find_start. repeat run_step.
  cbn zeta. by destruct (find c start_marker 0 =? -1).
Qed.

Lemma stmt_find_end_run st c sp :
  globals st !! "content" = Some (VStr c) →
  globals st !! "end_marker" = Some (VStr end_marker) →
  globals st !! "start_pos" = Some (VInt sp) →
  stmt_find_end st =
    let st' := set_global "end_pos" (VInt (find c end_marker sp)) st in
    if find c end_marker sp =? -1
    then (Raise (SystemExit 1), put_line msg_end_not_found st')
    else (Ok tt, st').
Proof.
  intros Hc Hm Hsp. unfold stmt_find_end. repeat run_step.
  cbn zeta. by destruct (find c end_marker sp =? -1).
Qed.

Lemma stmt_preview_run st c sp ep :
  globals st !! "content" = Some (VStr c) →
  globals st !! "start_pos" = Some (VInt sp) →
  globals st !! "end_pos" = Some (VInt ep) →
  stmt_preview repr st =
    let old := slice c sp (ep + len closing_literal) in
    (Ok tt, put_line (repr (slice_to old 200 ++ lit "..."))
              (put_line msg_found (set_global "old_content" (VStr old) st))).
Proof.
  intros Hc Hsp Hep. unfold stmt_preview. repeat run_step. done.
Qed.

Lemma stmt_new_content_run st c sp ep :
  globals st !! "content" = Some (VStr c) →
  globals st !! "start_pos" = Some (VInt sp) →
  globals st !! "new_replacement" = Some (VStr new_replacement) →
  globals st !! "end_pos" = Some (VInt ep) →
  stmt_new_content st =
    (Ok tt, set_global "new_content"
              (VStr (slice_to c sp ++ new_replacement
                     ++ slice_from c
                          (ep + len closing_literal + len trailer_literal)))
              st).
Proof.
  intros Hc Hsp Hr Hep. unfold stmt_new_content. repeat run_step. done.
Qed.

Lemma stmt_write_run st n :
  globals st !! "new_content" = Some (VStr n) →
  stmt_write st
  = (Ok tt, set_file path n (set_global "f" (VFile path) (set_file path [] st))).
Proof.
  intros Hn. unfold stmt_write.
  erewrite (bind_ok (open_w _)) by reflexivity.
  repeat run_step.
  unfold file_write, set_file, set_global. cbn [files globals stdout].
  by rewrite lookup_insert_eq.
Qed.

(** The marker block, run where [content] is bound to [c]: it ends as
    [new_content_of c] says, writes only on success, and prints one message
    on failure. *)
Lemma marker_block_run st c :
  globals st !! "content" = Some (VStr c) →
  observable (marker_block repr st)
  = outcome_observable (new_content_of c)
      (repr (slice_to (old_content_of c) 200 ++ lit "..."))
      (files st) (stdout st).
Proof.
  intros Hc. unfold marker_block, new_content_of, replace_span, old_content_of.
  rewrite (bind_ok _ _ _ _ _ (stmt_literals_run st)).
  set (sp := find c start_marker 0). set (ep := find c end_marker sp).
  match goal with |- context [(stmt_find_start ≫= ?k) ?s] =>
    pose proof (stmt_find_start_run s c) as Hs end.
  cbn zeta in Hs. fold sp in Hs.
  destruct (sp =? -1) eqn:Hsp.
  { rewrite (bind_raise _ _ _ _ _ (Hs ltac:(lookup_global) ltac:(lookup_global))).
    done. }
  rewrite (bind_ok _ _ _ _ _ (Hs ltac:(lookup_global) ltac:(lookup_global))).
  clear Hs.
  match goal with |- context [(stmt_find_end ≫= ?k) ?s] =>
    pose proof (stmt_find_end_run s c sp) as He end.
  cbn zeta in He. fold ep in He.
  destruct (ep =? -1) eqn:Hep.
  { rewrite (bind_raise _ _ _ _ _
      (He ltac:(lookup_global) ltac:(lookup_global) ltac:(lookup_global))).
    done. }
  rewrite (bind_ok _ _ _ _ _
    (He ltac:(lookup_global) ltac:(lookup_global) ltac:(lookup_global))).
  clear He.
  erewrite (bind_ok (stmt_preview repr))
    by (apply (stmt_preview_run _ c sp ep); lookup_global).
  cbn zeta.
  erewrite (bind_ok stmt_new_content)
    by (apply (stmt_new_content_run _ c sp ep); lookup_global).
  erewrite (bind_ok stmt_write) by (apply stmt_write_run; lookup_global).
  unfold stmt_completed, print, observable, outcome_observable.
  cbn [fst snd files stdout set_file put_line set_global].
  rewrite insert_insert_eq. by rewrite <- !(assoc_L (++)).
Qed.

Lemma stmt_read_run st c :
  files st !! path = Some c →
  stmt_read st
  = (Ok tt, set_global "content" (VStr c) (set_global "f" (VFile path) st)).
Proof.
  intros Hf. unfold stmt_read.
  erewrite (bind_ok (open_r _)) by (unfold open_r; by rewrite Hf).
  repeat run_step.
  erewrite (bind_ok (file_read _))
    by (unfold file_read; cbn [files set_global]; by rewrite Hf).
  done.
Qed.

Lemma stmt_read_missing st :
  files st !! path = None →
  stmt_read st = (Raise (FileNotFoundError path), st).
Proof.
  intros Hf. unfold stmt_read. apply bind_raise. unfold open_r. by rewrite Hf.
Qed.

(** The script, on a file that holds [c]. *)
Lemma script_run st c :
  files st !! path = Some c →
  observable (script repr st)
  = outcome_observable (new_content_of c)
      (repr (slice_to (old_content_of c) 200 ++ lit "..."))
      (files st) (stdout st).
Proof.
  intros Hf. unfold script, stmt_import_re, import_module, stmt_old_pattern.
  erewrite (bind_ok (store _ _)) by reflexivity.
  erewrite (bind_ok stmt_read) by (apply (stmt_read_run _ c); exact Hf).
  erewrite (bind_ok (store _ _)) by reflexivity.
  rewrite (marker_block_run _ c) by lookup_global.
  done.
Qed.

Lemma script_missing st :
  files st !! path = None →
  observable (script repr st)
  = (Raise (FileNotFoundError path), files st, stdout st).
Proof.
  intros Hf. unfold script, stmt_import_re, import_module.
  erewrite (bind_ok (store _ _)) by reflexivity.
  erewrite (bind_raise stmt_read) by (apply stmt_read_missing; exact Hf).
  done.
Qed.

Lemma script_without_pattern_run st c :
  files st !! path = Some c →
  observable (script_without_pattern repr st)
  = outcome_observable (new_content_of c)
      (repr (slice_to (old_content_of c) 200 ++ lit "..."))
      (files st) (stdout st).
Proof.
  intros Hf. unfold script_without_pattern.
  erewrite (bind_ok stmt_read) by (apply (stmt_read_run _ c); exact Hf).
  rewrite (marker_block_run _ c) by lookup_global.
  done.
Qed.

Lemma script_without_pattern_missing st :
  files st !! path = None →
  observable (script_without_pattern repr st)
  = (Raise (FileNotFoundError path), files st, stdout st).
Proof.
  intros Hf. unfold script_without_pattern.
  erewrite (bind_raise stmt_read) by (apply stmt_read_missing; exact Hf).
  done.
Qed.

End ScriptRuns.
(** ** The splice *)

Lemma first_occurrence_ge (s sub : str) from i :
  first_occurrence s sub from i → from ≤ i ≤ len s.
Proof.
  intros (Hi & Hocc & _). apply occurs_at_prefix in Hocc as [Hr _]. lia.
Qed.

Lemma find_first_eq (s sub : str) start i :
  0 ≤ start → i ≠ -1 → find s sub start = i → first_occurrence s sub start i.
Proof. intros Hst Hi <-. by apply find_first. Qed.

Lemma find_absent (s sub : str) : find s sub 0 = -1 → absent s sub.
Proof.
  intros Hf i Hocc. pose proof Hocc as (Hi & _).
  by apply (find_none s sub 0 ltac:(lia) Hf i).
Qed.

Lemma len_slice_from (s : str) i :
  0 ≤ i ≤ len s → len (slice_from s i) = len s - i.
Proof.
  intros Hi. rewrite slice_from_drop by lia.
  unfold len in *. rewrite length_drop. lia.
Qed.

(** Both markers found: the script's expression of line 128. *)
Lemma replace_span_found (D S E R A B : str) sp ep :
  first_occurrence D S 0 sp → first_occurrence D E sp ep →
  replace_span D S E R A B
  = Replaced (slice_to D sp ++ R ++ slice_from D (ep + len A + len B)).
Proof.
  intros Hs He.
  pose proof (first_occurrence_ge _ _ _ _ Hs) as Hsp.
  pose proof (first_occurrence_ge _ _ _ _ He) as Hep.
  unfold replace_span.
  rewrite (first_occurrence_find D S 0 sp) by (lia || done).
  destruct (Z.eqb_spec sp (-1)); [lia |].
  rewrite (first_occurrence_find D E sp ep) by (lia || done).
  destruct (Z.eqb_spec ep (-1)); [lia | done].
Qed.

Lemma replace_span_no_start (D S E R A B : str) :
  find D S 0 = -1 → replace_span D S E R A B = StartMarkerNotFound.
Proof. intros H. unfold replace_span. by rewrite H. Qed.

Lemma replace_span_no_end (D S E R A B : str) :
  find D S 0 ≠ -1 → find D E (find D S 0) = -1 →
  replace_span D S E R A B = EndMarkerNotFound.
Proof.
  intros Hs He. unfold replace_span.
  destruct (Z.eqb_spec (find D S 0) (-1)); [done |]. by rewrite He.
Qed.

(** ** The literals of the script, measured *)

Lemma len_end_marker : len end_marker = 150.
Proof. by vm_compute. Qed.

Lemma len_start_marker : len start_marker = 264.
Proof. by vm_compute. Qed.

Lemma len_closing_literal : len closing_literal = 24.
Proof. by vm_compute. Qed.

Lemma len_trailer_literal : len trailer_literal = 28.
Proof. by vm_compute. Qed.

Lemma trailer_len_52 : trailer_len = 52.
Proof. by vm_compute. Qed.

(** The two literals, one after the other, are how the end marker begins. *)
Lemma trailer_prefix_of_end_marker :
  closing_literal ++ trailer_literal = take 52 end_marker.
Proof. by vm_compute. Qed.

(** The marker is matched as it is written: a dot and a star are a dot and a
    star. *)
Example find_is_literal :
  find (lit "axxb a.*b") (lit "a.*b") 0 = 5 ∧
  find (lit "axxb") (lit "a.*b") 0 = -1 ∧
  find (lit "a\(b") (lit "\(") 0 = 1.
Proof. by vm_compute. Qed.

(** ** The claims about the splice *)

(** C1, as the code has it: when [S] is found at [startPos] (its first
    occurrence), [E] at [endPos] (its first occurrence at or after
    [startPos]) and [endPos + len(A) + t <= len(D)], where [A] is the closing
    literal whose length the code adds to [endPos] and [t] the length of the
    trailer literal, the result is exactly
    [D[0:startPos] + R + D[endPos + len(A) + t:]], prefix and tail taken
    without clamping.  The removed span runs through [len(A) + t] characters
    from the start of the end-marker match; it runs through the end of the
    match plus the trailer when [A] is as long as [E]. *)
Theorem C1_span_through_closing_literal
    (D S E R A B : str) (startPos endPos t : Z) :
  first_occurrence D S 0 startPos →
  first_occurrence D E startPos endPos →
  len B = t →
  endPos + len A + t ≤ len D →
  replace_span D S E R A B
  = Replaced (take (Z.to_nat startPos) D ++ R
              ++ drop (Z.to_nat (endPos + len A + t)) D)
  ∧ take (Z.to_nat startPos) D = slice D 0 startPos
  ∧ drop (Z.to_nat (endPos + len A + t)) D
    = slice_from D (endPos + len A + t)
  ∧ (len A = len E →
     replace_span D S E R A B
     = Replaced (slice D 0 startPos ++ R
                 ++ slice_from D (endPos + len E + t))).
Proof.
  intros Hs He <- Hle.
  pose proof (first_occurrence_ge _ _ _ _ Hs) as Hsp.
  pose proof (first_occurrence_ge _ _ _ _ He) as Hep.
  pose proof (len_nonneg A). pose proof (len_nonneg B).
  rewrite (replace_span_found D S E R A B startPos endPos Hs He).
  rewrite slice_to_take by lia. rewrite slice_from_drop by lia.
  split; [done |]. split; [by rewrite <- slice_to_take by lia |].
  split; [done |].
  intros <-. fold (slice_to D startPos).
  rewrite slice_to_take by lia. by rewrite slice_from_drop by lia.
Qed.

(** C2: when both markers are found, the document the script writes is
    [document[0:start_pos] + replacement + document[end_pos + trailer_len:]],
    [start_pos] the first match of the start marker, [end_pos] the first
    match of the end marker at or after it, [trailer_len] the fixed count of
    characters removed from [end_pos] on. *)
Theorem C2_output_document
    (repr : str → str) (st : state) (document : str) (start_pos end_pos : Z) :
  files st !! path = Some document →
  first_occurrence document start_marker 0 start_pos →
  first_occurrence document end_marker start_pos end_pos →
  let output := slice_to document start_pos ++ new_replacement
                ++ slice_from document (end_pos + trailer_len) in
  new_content_of document = Replaced output
  ∧ (script repr st).1 = Ok tt
  ∧ files (script repr st).2 = <[path := output]> (files st).
Proof.
  intros Hf Hs He output.
  assert (new_content_of document = Replaced output) as Hnew.
  { unfold new_content_of.
    rewrite (replace_span_found _ _ _ _ _ _ start_pos end_pos Hs He).
    unfold output, trailer_len. by rewrite Z.add_assoc. }
  split; [done |].
  pose proof (script_run repr st document Hf) as Hrun.
  rewrite Hnew in Hrun. unfold observable, outcome_observable in Hrun.
  by inversion Hrun.
Qed.

(** C3: with the start marker at [i1 < i2], the splice is at the first
    occurrence [p] of the start marker: never at [i2], at [i1] when nothing
    occurs before [i1]; the end marker is looked for from [p] on only, and its
    first occurrence from there closes the span, wherever else it occurs. *)
Theorem C3_first_occurrence_policy (D S E R A B : str) (i1 i2 : Z) :
  occurs_at D S i1 → occurs_at D S i2 → i1 < i2 →
  ∃ p, find D S 0 = p
    ∧ first_occurrence D S 0 p
    ∧ p ≤ i1 ∧ p ≠ i2
    ∧ ((∀ j, 0 ≤ j < i1 → ¬ occurs_at D S j) → p = i1)
    ∧ (((∀ j, p ≤ j → ¬ occurs_at D E j)
        ∧ replace_span D S E R A B = EndMarkerNotFound)
       ∨ (∃ e, first_occurrence D E p e
            ∧ replace_span D S E R A B
              = Replaced (slice_to D p ++ R
                          ++ slice_from D (e + len A + len B)))).
Proof.
  intros H1 H2 Hlt.
  assert (find D S 0 ≠ -1) as Hne.
  { intros Hf. apply (find_absent _ _ Hf i1 H1). }
  pose proof (find_first D S 0 ltac:(lia) Hne) as Hp.
  set (p := find D S 0) in *.
  assert (p ≤ i1) as Hle.
  { destruct Hp as (_ & _ & Hmin). destruct (Z.le_gt_cases p i1); [done |].
    exfalso. apply (Hmin i1); [| done]. destruct H1. lia. }
  exists p. split; [done |]. split; [done |]. split; [done |].
  split; [lia |]. split.
  - intros Hmin. destruct (Z.eq_dec p i1) as [| Hd]; [done |].
    exfalso. apply (Hmin p); [| by destruct Hp as (_ & ? & _)].
    destruct Hp as (? & _). lia.
  - pose proof (first_occurrence_ge _ _ _ _ Hp) as Hp0.
    destruct (Z.eq_dec (find D E p) (-1)) as [He | He].
    + left. split; [by apply find_none; [lia |] |].
      by apply replace_span_no_end.
    + right. exists (find D E p).
      pose proof (find_first D E p ltac:(lia) He) as Hfe.
      split; [done |]. by apply replace_span_found.
Qed.

(** C5, as the code has it: there is no range check.  When both markers are
    found an output is produced whatever the splice boundary, also when
    [endPos + len(E) + t] is beyond the end of the document: the result is
    [D[0:startPos] + R + D[endPos + len(A) + t:]], [A] the closing literal
    and [t] the length of the trailer literal, with the tail as [drop] gives
    it, which is empty once the boundary the code computes is at or beyond
    the end. *)
Theorem C5_output_whatever_the_boundary
    (D S E R A B : str) (startPos endPos t : Z) :
  first_occurrence D S 0 startPos →
  first_occurrence D E startPos endPos →
  len B = t →
  replace_span D S E R A B
  = Replaced (take (Z.to_nat startPos) D ++ R
              ++ drop (Z.to_nat (endPos + len A + t)) D)
  ∧ (len D < endPos + len E + t →
     ∃ out, replace_span D S E R A B = Replaced out)
  ∧ (len D ≤ endPos + len A + t →
     replace_span D S E R A B = Replaced (slice_to D startPos ++ R)).
Proof.
  intros Hs He <-.
  pose proof (first_occurrence_ge _ _ _ _ Hs) as Hsp.
  pose proof (first_occurrence_ge _ _ _ _ He) as Hep.
  pose proof (len_nonneg A). pose proof (len_nonneg B).
  rewrite (replace_span_found D S E R A B startPos endPos Hs He).
  split; [| split].
  - by rewrite slice_to_take, slice_from_drop by lia.
  - intros _. by eexists.
  - intros Hle. rewrite slice_from_beyond by lia. by rewrite app_nil_r.
Qed.


(** C7: [find] returns the index of the first occurrence of the marker at or
    after [searchFrom], the characters there being exactly the marker's, or
    [-1] when there is no occurrence from [searchFrom] on. *)
Theorem C7_locate (document marker : str) (searchFrom : nat) :
  let r := find document marker (Z.of_nat searchFrom) in
  (r = -1 ∧ ∀ j, Z.of_nat searchFrom ≤ j → ¬ occurs_at document marker j)
  ∨ (r ≠ -1
     ∧ first_occurrence document marker (Z.of_nat searchFrom) r
     ∧ slice document r (r + len marker) = marker).
Proof.
  intros r. destruct (Z.eq_dec r (-1)) as [Hr | Hr].
  - left. split; [done |]. apply find_none; [lia | done].
  - right. split; [done |].
    pose proof (find_first document marker (Z.of_nat searchFrom)
                  ltac:(lia) Hr) as Hf.
    split; [done |]. by destruct Hf as (_ & (_ & _ & Heq) & _).
Qed.

(** C10, as the code has it: when both markers are found, the splice end
    [end_pos + 52] is within the document: the 52 characters of the two
    literals are how the 150-character end marker begins, and the end marker
    was matched at [end_pos].  The characters removed from [end_pos] on are
    those of the two literals, and the tail is the document from the splice
    end on, nothing cut short. *)
Theorem C10_splice_end_in_range (content : str) :
  find content start_marker 0 ≠ -1 →
  find content end_marker (find content start_marker 0) ≠ -1 →
  let end_pos := find content end_marker (find content start_marker 0) in
  trailer_len = 52 ∧ len end_marker = 150
  ∧ closing_literal ++ trailer_literal `prefix_of` end_marker
  ∧ end_pos + trailer_len ≤ len content
  ∧ slice content end_pos (end_pos + trailer_len)
    = closing_literal ++ trailer_literal
  ∧ slice_from content (end_pos + trailer_len)
    = drop (Z.to_nat (end_pos + trailer_len)) content
  ∧ len (slice_from content (end_pos + trailer_len))
    = len content - (end_pos + trailer_len).
Proof.
  intros Hs He end_pos.
  pose proof (find_first content start_marker 0 ltac:(lia) Hs) as Hfs.
  pose proof (first_occurrence_ge _ _ _ _ Hfs) as Hsp.
  pose proof (find_first content end_marker (find content start_marker 0)
                ltac:(lia) He) as Hfe.
  fold end_pos in Hfe.
  pose proof (first_occurrence_ge _ _ _ _ Hfe) as Hep.
  destruct Hfe as (_ & Hocc & _).
  pose proof Hocc as (_ & Hin & _).
  apply occurs_at_prefix in Hocc as [_ [k Hk]].
  rewrite len_end_marker in Hin. rewrite trailer_len_52.
  split; [done |]. split; [apply len_end_marker |].
  split; [rewrite trailer_prefix_of_end_marker; apply prefix_take |].
  split; [lia |]. split; [| split].
  - unfold slice. rewrite !clamp_index_in_range by lia.
    replace (Z.to_nat (end_pos + 52 - end_pos)) with 52%nat by lia.
    rewrite Hk, trailer_prefix_of_end_marker.
    apply take_app_le. pose proof len_end_marker. unfold len in *. lia.
  - apply slice_from_drop. lia.
  - apply len_slice_from. lia.
Qed.

(** ** The claims about the run of the script *)

(** A document without one of the markers: which search fails. *)
Lemma new_content_of_start_absent (document : str) :
  absent document start_marker →
  new_content_of document = StartMarkerNotFound.
Proof.
  intros Habs. apply replace_span_no_start. by apply absent_find.
Qed.

Lemma new_content_of_end_absent (document : str) :
  ¬ absent document start_marker → absent document end_marker →
  new_content_of document = EndMarkerNotFound.
Proof.
  intros Hs He.
  assert (find document start_marker 0 ≠ -1) as Hne.
  { intros Hf. by apply Hs, find_absent. }
  apply replace_span_no_end; [done |].
  apply absent_find; [| done].
  pose proof (find_range document start_marker 0 ltac:(lia)). lia.
Qed.

Lemma absent_dec_start (document : str) :
  absent document start_marker ∨ ¬ absent document start_marker.
Proof.
  destruct (Z.eq_dec (find document start_marker 0) (-1)) as [Hf | Hf].
  - left. by apply find_absent.
  - right. intros Habs. by apply Hf, absent_find.
Qed.

(** C4: when the start marker or the end marker is absent, the script ends
    with [exit(1)] and every file is what it was before the run. *)
Theorem C4_failure_writes_nothing
    (repr : str → str) (st : state) (document : str) :
  files st !! path = Some document →
  absent document start_marker ∨ absent document end_marker →
  (script repr st).1 = Raise (SystemExit 1)
  ∧ files (script repr st).2 = files st
  ∧ files (script repr st).2 !! path = Some document.
Proof.
  intros Hf Habs.
  pose proof (script_run repr st document Hf) as Hrun.
  assert (new_content_of document = StartMarkerNotFound
          ∨ new_content_of document = EndMarkerNotFound) as [Hn | Hn].
  { destruct (absent_dec_start document) as [Hs | Hs].
    - left. by apply new_content_of_start_absent.
    - destruct Habs as [? | He]; [done |].
      right. by apply new_content_of_end_absent. }
  all: rewrite Hn in Hrun; unfold observable, outcome_observable in Hrun;
    injection Hrun as Hres Hfiles Hout;
    split; [exact Hres |]; split; [done |]; by rewrite Hfiles.
Qed.


(** C9: line 2 and lines 9-85 are dead.  From every state, the script and the
    script without them end the same way, leave the same files and print the
    same lines. *)
Theorem C9_pattern_block_is_dead (repr : str → str) (st : state) :
  observable (script repr st) = observable (script_without_pattern repr st).
Proof.
  destruct (files st !! path) as [c |] eqn:Hf.
  - by rewrite (script_run repr st c Hf),
       (script_without_pattern_run repr st c Hf).
  - by rewrite (script_missing repr st Hf),
       (script_without_pattern_missing repr st Hf).
Qed.

(** ** The theorems at concrete documents *)

Lemma len_doc_two_blocks : len doc_two_blocks = 834.
Proof. by vm_compute. Qed.

Lemma len_doc_two_markers : len doc_two_markers = 414.
Proof. by vm_compute. Qed.

Lemma files_state_with (c : str) : files (state_with c) !! path = Some c.
Proof. apply lookup_singleton_eq. Qed.

(** The splice of C1, as the code has it, on two marked blocks in a row, with
    the literals of the script. *)
Lemma C1_span_witness :
  replace_span doc_two_blocks start_marker end_marker new_replacement
    closing_literal trailer_literal
  = Replaced (take (Z.to_nat 0) doc_two_blocks ++ new_replacement
              ++ drop (Z.to_nat (267 + len closing_literal + 28))
                   doc_two_blocks).
Proof.
  refine (proj1 (C1_span_through_closing_literal doc_two_blocks start_marker
                   end_marker new_replacement closing_literal trailer_literal
                   0 267 28 _ _ _ _)).
  - apply find_first_eq; [lia | lia | by vm_compute].
  - apply find_first_eq; [lia | lia | by vm_compute].
  - by vm_compute.
  - by vm_compute.
Defined.

(** C1 as it is stated fails on the script: on two marked blocks in a row the
    start marker is first found at 0 and the end marker at 267, and for no
    trailer length [t] is the result [D[0:0] + R + D[267 + len(E) + t:]]: the
    result keeps the 98 characters of the end-marker match after its first
    52. *)
Lemma C1_counterexample :
  first_occurrence doc_two_blocks start_marker 0 0
  ∧ first_occurrence doc_two_blocks end_marker 0 267
  ∧ ¬ ∃ t, 0 ≤ t
       ∧ 267 + len end_marker + t ≤ len doc_two_blocks
       ∧ new_content_of doc_two_blocks
         = Replaced (slice doc_two_blocks 0 0 ++ new_replacement
                     ++ slice_from doc_two_blocks (267 + len end_marker + t)).
Proof.
  assert (first_occurrence doc_two_blocks start_marker 0 0) as Hs.
  { apply find_first_eq; [lia | lia | by vm_compute]. }
  assert (first_occurrence doc_two_blocks end_marker 0 267) as He.
  { apply find_first_eq; [lia | lia | by vm_compute]. }
  split; [done |]. split; [done |].
  intros (t & Ht & Hle & Heq).
  unfold new_content_of in Heq.
  rewrite (replace_span_found _ _ _ _ _ _ 0 267 Hs He) in Heq.
  injection Heq as Heq. unfold slice_to in Heq.
  repeat apply app_inv_head in Heq.
  apply (f_equal len) in Heq.
  rewrite len_end_marker, len_doc_two_blocks in Hle.
  rewrite len_closing_literal, len_trailer_literal, len_end_marker in Heq.
  rewrite !len_slice_from in Heq by (rewrite len_doc_two_blocks; lia).
  lia.
Qed.

(** The output document of C2 on two marked blocks in a row. *)
Lemma C2_output_witness :
  new_content_of doc_two_blocks
  = Replaced (slice_to doc_two_blocks 0 ++ new_replacement
              ++ slice_from doc_two_blocks (267 + trailer_len))
  ∧ (script id (state_with doc_two_blocks)).1 = Ok tt
  ∧ files (script id (state_with doc_two_blocks)).2
    = <[path := slice_to doc_two_blocks 0 ++ new_replacement
                ++ slice_from doc_two_blocks (267 + trailer_len)]>
        (files (state_with doc_two_blocks)).
Proof.
  apply (C2_output_document id (state_with doc_two_blocks) doc_two_blocks
           0 267).
  - apply files_state_with.
  - apply find_first_eq; [lia | lia | by vm_compute].
  - apply find_first_eq; [lia | lia | by vm_compute].
Defined.

(** The first-occurrence policy of C3 on the document of scenario 3, where
    the start marker is at 0 and at 9. *)
Lemma C3_policy_witness :
  ∃ p, find doc_scenario3 (lit "<s>") 0 = p
    ∧ first_occurrence doc_scenario3 (lit "<s>") 0 p
    ∧ p ≤ 0 ∧ p ≠ 9
    ∧ ((∀ j, 0 ≤ j < 0 → ¬ occurs_at doc_scenario3 (lit "<s>") j) → p = 0)
    ∧ (((∀ j, p ≤ j → ¬ occurs_at doc_scenario3 (lit "<e>") j)
        ∧ replace_span doc_scenario3 (lit "<s>") (lit "<e>") []
            (lit "<e>") []
          = EndMarkerNotFound)
       ∨ (∃ e, first_occurrence doc_scenario3 (lit "<e>") p e
            ∧ replace_span doc_scenario3 (lit "<s>") (lit "<e>") []
                (lit "<e>") []
              = Replaced (slice_to doc_scenario3 p ++ []
                          ++ slice_from doc_scenario3
                               (e + len (lit "<e>") + len [])))).
Proof.
  apply (C3_first_occurrence_policy doc_scenario3 (lit "<s>") (lit "<e>") []
           (lit "<e>") [] 0 9).
  - repeat split; by vm_compute.
  - repeat split; by vm_compute.
  - lia.
Defined.

(** The failure of C4 on a file that holds neither marker. *)
Lemma C4_failure_witness :
  (script id (state_with (lit "foo<start>bar"))).1 = Raise (SystemExit 1)
  ∧ files (script id (state_with (lit "foo<start>bar"))).2
    = files (state_with (lit "foo<start>bar"))
  ∧ files (script id (state_with (lit "foo<start>bar"))).2 !! path
    = Some (lit "foo<start>bar").
Proof.
  apply (C4_failure_writes_nothing id (state_with (lit "foo<start>bar"))
           (lit "foo<start>bar")).
  - apply files_state_with.
  - left. apply find_absent. by vm_compute.
Defined.

(** The output of C5 on the two markers one after the other, with the
    literals of the script: the end marker is found at 264, and
    [264 + len(E) + 28] is beyond the 414 characters of the document. *)
Lemma C5_output_witness :
  replace_span doc_two_markers start_marker end_marker new_replacement
    closing_literal trailer_literal
  = Replaced (take (Z.to_nat 0) doc_two_markers ++ new_replacement
              ++ drop (Z.to_nat (264 + len closing_literal + 28))
                   doc_two_markers)
  ∧ (len doc_two_markers < 264 + len end_marker + 28 →
     ∃ out, replace_span doc_two_markers start_marker end_marker
              new_replacement closing_literal trailer_literal
            = Replaced out)
  ∧ (len doc_two_markers ≤ 264 + len closing_literal + 28 →
     replace_span doc_two_markers start_marker end_marker new_replacement
       closing_literal trailer_literal
     = Replaced (slice_to doc_two_markers 0 ++ new_replacement)).
Proof.
  apply (C5_output_whatever_the_boundary doc_two_markers start_marker
           end_marker new_replacement closing_literal trailer_literal
           0 264 28).
  - apply find_first_eq; [lia | lia | by vm_compute].
  - apply find_first_eq; [lia | lia | by vm_compute].
  - by vm_compute.
Defined.

(** C5 as it is stated fails: no run ends out of range.  On the two markers
    one after the other the script finds the end marker at 264, where
    [264 + len(E) + 28] is beyond the 414 characters of the document, and
    produces an output; and where the boundary the code computes is itself
    beyond the end (10 in a document of 7), the output is produced with an
    empty tail. *)
Lemma C5_counterexample :
  (first_occurrence doc_two_markers start_marker 0 0
   ∧ first_occurrence doc_two_markers end_marker 0 264
   ∧ len doc_two_markers < 264 + len end_marker + len trailer_literal
   ∧ new_content_of doc_two_markers
     = Replaced (new_replacement ++ drop 52 end_marker))
  ∧ (first_occurrence (lit "<s>x<e>") (lit "<s>") 0 0
     ∧ first_occurrence (lit "<s>x<e>") (lit "<e>") 0 4
     ∧ len (lit "<s>x<e>") < 4 + len (lit "<e>") + 3
     ∧ replace_span (lit "<s>x<e>") (lit "<s>") (lit "<e>") (lit "R")
         (lit "<e>") (lit "abc")
       = Replaced (lit "R")).
Proof.
  split; (split; [| split; [| split]]);
    first [ by vm_compute
          | apply find_first_eq; [lia | lia | by vm_compute] ].
Qed.



(** The splice end of C10 on two marked blocks in a row. *)
Lemma C10_in_range_witness :
  trailer_len = 52 ∧ len end_marker = 150
  ∧ closing_literal ++ trailer_literal `prefix_of` end_marker
  ∧ find doc_two_blocks end_marker (find doc_two_blocks start_marker 0)
    + trailer_len ≤ len doc_two_blocks.
Proof.
  pose proof (C10_splice_end_in_range doc_two_blocks) as H.
  cbn zeta in H.
  destruct H as (H1 & H2 & H3 & H4 & _); [by vm_compute | by vm_compute |].
  auto.
Defined.

(** C10 as it is stated fails in its figures: the two literals have 52
    characters, not 50, the end marker 150, not 101, and the script does not
    splice at [end_pos + 50]. *)
Lemma C10_counterexample :
  trailer_len ≠ 50 ∧ len end_marker ≠ 101
  ∧ find doc_two_markers start_marker 0 = 0
  ∧ find doc_two_markers end_marker 0 = 264
  ∧ new_content_of doc_two_markers
    ≠ Replaced (slice_to doc_two_markers 0 ++ new_replacement
                ++ slice_from doc_two_markers (264 + 50)).
Proof.
  split; [by vm_compute |]. split; [by vm_compute |].
  split; [by vm_compute |]. split; [by vm_compute |].
  intros H.
  apply (f_equal (λ o, match o with Replaced n => len n | _ => 0 end)) in H.
  by vm_compute in H.
Qed.

(** * More of the script *)

(** ** Where the markers can be *)

Lemma length_start_marker : length start_marker = 264%nat.
Proof. by vm_compute. Qed.

Lemma length_end_marker : length end_marker = 150%nat.
Proof. by vm_compute. Qed.

Lemma length_new_replacement : length new_replacement = 531%nat.
Proof. by vm_compute. Qed.

(** Two strings found in [s], the second starting inside the first or right
    after it: where they overlap they have the same characters. *)
Lemma prefix_overlap (s a b : str) (i j : nat) :
  a `prefix_of` drop i s → b `prefix_of` drop j s →
  (i ≤ j ≤ i + length a)%nat →
  let m := Nat.min (length b) (length a - (j - i)) in
  take m (drop (j - i) a) = take m b.
Proof.
  intros [ra Ha] [rb Hb] Hij m.
  assert (drop j s = drop (j - i) a ++ ra) as Hj.
  { replace j with (i + (j - i))%nat at 1 by lia.
    rewrite <- drop_drop, Ha. apply drop_app_le. lia. }
  transitivity (take m (drop j s)).
  - rewrite Hj. symmetry. apply take_app_le. rewrite length_drop. lia.
  - rewrite Hb. apply take_app_le. lia.
Qed.

(** No end of the start marker is a beginning of the end marker, and the end
    marker does not occur inside the start marker: checked at each of the
    264 offsets. *)
Lemma markers_overlap_nowhere :
  forallb
    (λ d, negb (bool_decide
       (take (Nat.min 150 (264 - d)) (drop d start_marker)
        = take (Nat.min 150 (264 - d)) end_marker)))
    (seq 0 264) = true.
Proof. by vm_compute. Qed.

(** An end marker found at or after a start marker starts after its end. *)
Lemma markers_apart (content : str) sp ep :
  occurs_at content start_marker sp → occurs_at content end_marker ep →
  sp ≤ ep → sp + len start_marker ≤ ep.
Proof.
  intros Hs He Hle. rewrite len_start_marker.
  destruct (Z.le_gt_cases (sp + 264) ep) as [| Hlt]; [done | exfalso].
  apply occurs_at_prefix in Hs as [Hsr Hsp].
  apply occurs_at_prefix in He as [Her Hep].
  pose proof (prefix_overlap content start_marker end_marker
                (Z.to_nat sp) (Z.to_nat ep) Hsp Hep) as Hov.
  rewrite length_start_marker, length_end_marker in Hov.
  specialize (Hov ltac:(lia)). cbn zeta in Hov.
  pose proof markers_overlap_nowhere as Hchk.
  rewrite List.forallb_forall in Hchk.
  specialize (Hchk (Z.to_nat ep - Z.to_nat sp)%nat).
  rewrite List.in_seq in Hchk. specialize (Hchk ltac:(lia)).
  apply negb_true_iff, bool_decide_eq_false in Hchk. by apply Hchk.
Qed.

(** What a document with both markers is made of: the text before the start
    marker, the start marker, the text between the markers, the end marker,
    and the rest. *)
Lemma content_decomposed (content : str) sp ep :
  first_occurrence content start_marker 0 sp →
  first_occurrence content end_marker sp ep →
  content = take (Z.to_nat sp) content ++ start_marker
            ++ take (Z.to_nat (ep - (sp + 264)))
                 (drop (Z.to_nat (sp + 264)) content)
            ++ end_marker ++ drop (Z.to_nat (ep + 150)) content.
Proof.
  intros Hs He.
  pose proof (first_occurrence_ge _ _ _ _ Hs) as Hsp.
  pose proof (first_occurrence_ge _ _ _ _ He) as Hep.
  destruct Hs as (_ & Hso & _). destruct He as (_ & Heo & _).
  pose proof (markers_apart content sp ep Hso Heo ltac:(lia)) as Hap.
  rewrite len_start_marker in Hap.
  apply occurs_at_prefix in Hso as [_ [r1 Hr1]].
  apply occurs_at_prefix in Heo as [_ [r2 Hr2]].
  assert (drop (Z.to_nat (sp + 264)) content = r1) as H1.
  { replace (Z.to_nat (sp + 264)) with (Z.to_nat sp + 264)%nat by lia.
    rewrite <- drop_drop, Hr1. apply drop_app_length'.
    by rewrite length_start_marker. }
  assert (drop (Z.to_nat (ep + 150)) content = r2) as H2.
  { replace (Z.to_nat (ep + 150)) with (Z.to_nat ep + 150)%nat by lia.
    rewrite <- drop_drop, Hr2. apply drop_app_length'.
    by rewrite length_end_marker. }
  assert (drop (Z.to_nat (ep - (sp + 264))) r1 = end_marker ++ r2) as H3.
  { rewrite <- H1, drop_drop, <- Hr2. f_equal. lia. }
  rewrite H1, H2, <- H3, take_drop, <- Hr1. by rewrite take_drop.
Qed.

(** No end of the start marker is a beginning of the replacement: checked at
    each offset. *)
Lemma start_marker_not_into_replacement :
  forallb
    (λ d, negb (bool_decide
       (take (264 - d) new_replacement = drop d start_marker)))
    (seq 1 263) = true.
Proof. by vm_compute. Qed.

(** The start marker does not occur in the replacement, and no end of the
    replacement is a beginning of the start marker: checked at each offset. *)
Lemma start_marker_not_from_replacement :
  forallb
    (λ o, negb (bool_decide
       (take (Nat.min 264 (531 - o)) (drop o new_replacement)
        = take (Nat.min 264 (531 - o)) start_marker)))
    (seq 0 531) = true.
Proof. by vm_compute. Qed.

(** A start marker in [P ++ new_replacement ++ T] lies in [P] or in [T]. *)
Lemma start_marker_in_output (P T : str) (q : nat) :
  start_marker `prefix_of` drop q (P ++ new_replacement ++ T) →
  ((q + 264 ≤ length P)%nat ∧ start_marker `prefix_of` drop q P)
  ∨ ((length P + 531 ≤ q)%nat
     ∧ start_marker `prefix_of` drop (q - (length P + 531)) T).
Proof.
  intros [rest Hr].
  pose proof length_start_marker as Hls.
  pose proof length_new_replacement as Hlr.
  destruct (decide (q + 264 ≤ length P)%nat) as [Ha | Ha].
  { left. split; [done |]. rewrite drop_app_le in Hr by lia.
    apply (f_equal (take 264)) in Hr.
    rewrite take_app_le in Hr by (rewrite length_drop; lia).
    rewrite take_app_length' in Hr by done.
    rewrite <- Hr. apply prefix_take. }
  destruct (decide (q < length P)%nat) as [Hb | Hb].
  { exfalso. rewrite drop_app_le in Hr by lia.
    apply (f_equal (drop (length P - q))) in Hr.
    rewrite drop_app_length' in Hr by (rewrite length_drop; lia).
    rewrite drop_app_le in Hr by lia.
    apply (f_equal (take (264 - (length P - q)))) in Hr.
    rewrite take_app_le in Hr by lia.
    rewrite take_app_length' in Hr by (rewrite length_drop; lia).
    pose proof start_marker_not_into_replacement as Hchk.
    rewrite List.forallb_forall in Hchk.
    specialize (Hchk (length P - q)%nat).
    rewrite List.in_seq in Hchk. specialize (Hchk ltac:(lia)).
    apply negb_true_iff, bool_decide_eq_false in Hchk. by apply Hchk. }
  destruct (decide (q < length P + 531)%nat) as [Hc | Hc].
  { exfalso. rewrite drop_app_ge in Hr by lia.
    rewrite drop_app_le in Hr by lia.
    apply (f_equal (take (Nat.min 264 (531 - (q - length P))))) in Hr.
    rewrite take_app_le in Hr by (rewrite length_drop; lia).
    rewrite take_app_le in Hr by lia.
    pose proof start_marker_not_from_replacement as Hchk.
    rewrite List.forallb_forall in Hchk.
    specialize (Hchk (q - length P)%nat).
    rewrite List.in_seq in Hchk. specialize (Hchk ltac:(lia)).
    apply negb_true_iff, bool_decide_eq_false in Hchk. by apply Hchk. }
  right. split; [lia |]. exists rest. rewrite <- Hr.
  rewrite drop_app_ge by lia. rewrite drop_app_ge by lia.
  f_equal. lia.
Qed.

(** The patched document, by [take] and [drop]. *)
Lemma new_content_of_found (content : str) sp ep :
  first_occurrence content start_marker 0 sp →
  first_occurrence content end_marker sp ep →
  new_content_of content
  = Replaced (take (Z.to_nat sp) content ++ new_replacement
              ++ drop (Z.to_nat (ep + 52)) content).
Proof.
  intros Hs He.
  pose proof (first_occurrence_ge _ _ _ _ Hs) as Hsp.
  pose proof (first_occurrence_ge _ _ _ _ He) as Hep.
  unfold new_content_of.
  rewrite (replace_span_found _ _ _ _ _ _ sp ep Hs He).
  rewrite len_closing_literal, len_trailer_literal.
  rewrite slice_to_take, slice_from_drop by lia.
  do 4 f_equal. lia.
Qed.

(** The start markers of the patched document are those of the document
    after the removed span, moved with the text they are in. *)
Lemma start_marker_after_patch (content : str) sp ep q :
  first_occurrence content start_marker 0 sp →
  first_occurrence content end_marker sp ep →
  occurs_at (take (Z.to_nat sp) content ++ new_replacement
             ++ drop (Z.to_nat (ep + 52)) content) start_marker q
  ↔ sp + 531 ≤ q
    ∧ occurs_at content start_marker (q - (sp + 531) + (ep + 52)).
Proof.
  intros Hs He.
  pose proof (first_occurrence_ge _ _ _ _ Hs) as Hsp.
  pose proof (first_occurrence_ge _ _ _ _ He) as Hep.
  pose proof length_start_marker as Hls.
  pose proof length_new_replacement as Hlr.
  assert (ep + 150 ≤ len content) as Hin.
  { destruct He as (_ & (_ & Hin & _) & _). by rewrite len_end_marker in Hin. }
  assert (length (take (Z.to_nat sp) content) = Z.to_nat sp) as HlP.
  { apply length_take_le. unfold len in *. lia. }
  rewrite !occurs_at_prefix. unfold len in *.
  rewrite !length_app, HlP, Hlr, length_drop.
  split.
  - intros [Hq Hp]. apply start_marker_in_output in Hp as [[Hle Hp] | [Hle Hp]].
    + exfalso. rewrite HlP in Hle.
      destruct Hs as (_ & _ & Hmin). apply (Hmin q); [lia |].
      apply occurs_at_prefix. split; [unfold len; lia |].
      rewrite <- (drop_take_drop content (Z.to_nat q) (Z.to_nat sp)) by lia.
      by apply prefix_app_r.
    + rewrite HlP in Hle, Hp. rewrite drop_drop in Hp.
      split; [lia |].
      replace (Z.to_nat (q - (sp + 531) + (ep + 52)))
        with (Z.to_nat (ep + 52) + (Z.to_nat q - (Z.to_nat sp + 531)))%nat
        by lia.
      split; [| done].
      apply prefix_length in Hp. rewrite length_drop, Hls in Hp. lia.
  - intros (Hle & Hi & Hp). split; [lia |].
    rewrite drop_app_ge by lia. rewrite drop_app_ge by lia.
    rewrite drop_drop, HlP, Hlr.
    by replace (Z.to_nat (ep + 52) + (Z.to_nat q - Z.to_nat sp - 531))%nat
      with (Z.to_nat (q - (sp + 531) + (ep + 52))) by lia.
Qed.

(** ** Properties of the run *)

Lemma script_result (repr : str → str) (st : state) (content : str) :
  files st !! path = Some content →
  (script repr st).1
    = (outcome_observable (new_content_of content)
         (repr (slice_to (old_content_of content) 200 ++ lit "..."))
         (files st) (stdout st)).1.1
  ∧ files (script repr st).2
    = (outcome_observable (new_content_of content)
         (repr (slice_to (old_content_of content) 200 ++ lit "..."))
         (files st) (stdout st)).1.2
  ∧ stdout (script repr st).2
    = (outcome_observable (new_content_of content)
         (repr (slice_to (old_content_of content) 200 ++ lit "..."))
         (files st) (stdout st)).2.
Proof.
  intros Hf. pose proof (script_run repr st content Hf) as Hrun.
  unfold observable in Hrun. by rewrite <- Hrun.
Qed.

(** The first 200 characters of [old_content] are those of the start
    marker. *)
Lemma old_content_starts_with_marker (content : str) sp ep :
  first_occurrence content start_marker 0 sp →
  first_occurrence content end_marker sp ep →
  slice_to (old_content_of content) 200 = slice_to start_marker 200.
Proof.
  intros Hs He.
  pose proof (first_occurrence_ge _ _ _ _ Hs) as Hsp.
  pose proof (first_occurrence_ge _ _ _ _ He) as Hep.
  assert (ep + 150 ≤ len content) as Hin.
  { destruct He as (_ & (_ & Hin & _) & _). by rewrite len_end_marker in Hin. }
  pose proof (markers_apart content sp ep) as Hap.
  rewrite len_start_marker in Hap.
  specialize (Hap ltac:(by destruct Hs as (_ & ? & _))
                  ltac:(by destruct He as (_ & ? & _)) ltac:(lia)).
  unfold old_content_of.
  rewrite (first_occurrence_find content start_marker 0 sp) by (lia || done).
  rewrite (first_occurrence_find content end_marker sp ep) by (lia || done).
  rewrite len_closing_literal. rewrite !slice_to_take by lia.
  unfold slice. rewrite !clamp_index_in_range by lia.
  rewrite take_take.
  replace (Nat.min (Z.to_nat 200) (Z.to_nat (ep + 24 - sp)))
    with (Z.to_nat 200) by lia.
  destruct Hs as (_ & Hso & _).
  apply occurs_at_prefix in Hso as [_ [r1 ->]].
  apply take_app_le. rewrite length_start_marker. lia.
Qed.

(** X1: when [client/pages/Index.tsx] does not exist, the script ends with
    [FileNotFoundError] raised by the first [open], exit status 1, nothing
    printed and no file created or changed. *)
Theorem X1_missing_file (repr : str → str) (st : state) :
  files st !! path = None →
  (script repr st).1 = Raise (FileNotFoundError path)
  ∧ exit_status (script repr st).1 = 1
  ∧ files (script repr st).2 = files st
  ∧ stdout (script repr st).2 = stdout st.
Proof.
  intros Hf. pose proof (script_missing repr st Hf) as Hrun.
  unfold observable in Hrun. injection Hrun as Hres Hfiles Hout.
  by rewrite Hres.
Qed.

(** X2: an end marker found at or after a start marker starts after the end
    of the start marker: the two matches never overlap, so the removed span
    holds the whole start marker. *)
Theorem X2_markers_do_not_overlap (content : str) (start_pos end_pos : Z) :
  occurs_at content start_marker start_pos →
  occurs_at content end_marker end_pos →
  start_pos ≤ end_pos →
  start_pos + len start_marker ≤ end_pos.
Proof. apply markers_apart. Qed.

(** X3: on success the script ends normally and prints three lines: the
    announcement, the [repr] of the first 200 characters of the start marker
    followed by three dots, and the message of completion.  The preview
    shows nothing of the document. *)
Theorem X3_success_output
    (repr : str → str) (st : state) (content : str) (start_pos end_pos : Z) :
  files st !! path = Some content →
  first_occurrence content start_marker 0 start_pos →
  first_occurrence content end_marker start_pos end_pos →
  (script repr st).1 = Ok tt
  ∧ exit_status (script repr st).1 = 0
  ∧ stdout (script repr st).2
    = stdout st ++ [msg_found; repr (slice_to start_marker 200 ++ lit "...");
                    msg_completed].
Proof.
  intros Hf Hs He.
  destruct (script_result repr st content Hf) as (Hres & _ & Hout).
  rewrite (new_content_of_found content start_pos end_pos Hs He)
    in Hres, Hout.
  rewrite (old_content_starts_with_marker content start_pos end_pos Hs He)
    in Hout.
  cbn [outcome_observable fst snd] in Hres, Hout.
  by rewrite Hres, Hout.
Qed.

(** X4: a document with both markers is the text before the start marker,
    the start marker, the text between the markers, the end marker and the
    rest; the script keeps the first and the last, puts the replacement for
    the start marker and the text between, and keeps of the end marker what
    follows its first 52 characters. *)
Theorem X4_patch_by_parts (content : str) (start_pos end_pos : Z) :
  first_occurrence content start_marker 0 start_pos →
  first_occurrence content end_marker start_pos end_pos →
  let before := slice_to content start_pos in
  let between := slice content (start_pos + len start_marker) end_pos in
  let rest := slice_from content (end_pos + len end_marker) in
  content = before ++ start_marker ++ between ++ end_marker ++ rest
  ∧ new_content_of content
    = Replaced (before ++ new_replacement ++ drop 52 end_marker ++ rest)
  ∧ len (before ++ new_replacement ++ drop 52 end_marker ++ rest)
    = len content - (end_pos + trailer_len - start_pos) + len new_replacement.
Proof.
  intros Hs He before between rest.
  pose proof (first_occurrence_ge _ _ _ _ Hs) as Hsp.
  pose proof (first_occurrence_ge _ _ _ _ He) as Hep.
  assert (end_pos + 150 ≤ len content) as Hin.
  { destruct He as (_ & (_ & Hin & _) & _). by rewrite len_end_marker in Hin. }
  pose proof (markers_apart content start_pos end_pos) as Hap.
  rewrite len_start_marker in Hap.
  specialize (Hap ltac:(by destruct Hs as (_ & ? & _))
                  ltac:(by destruct He as (_ & ? & _)) ltac:(lia)).
  assert (before = take (Z.to_nat start_pos) content) as Hb.
  { unfold before. apply slice_to_take. lia. }
  assert (between = take (Z.to_nat (end_pos - (start_pos + 264)))
                      (drop (Z.to_nat (start_pos + 264)) content)) as Hm.
  { unfold between, slice. rewrite len_start_marker.
    by rewrite !clamp_index_in_range by lia. }
  assert (rest = drop (Z.to_nat (end_pos + 150)) content) as Hr.
  { unfold rest. rewrite len_end_marker. apply slice_from_drop. lia. }
  assert (drop (Z.to_nat (end_pos + 52)) content
          = drop 52 end_marker ++ rest) as Htail.
  { destruct He as (_ & Heo & _).
    apply occurs_at_prefix in Heo as [_ [r2 Hr2]].
    rewrite Hr. replace (Z.to_nat (end_pos + 52))
      with (Z.to_nat end_pos + 52)%nat by lia.
    replace (Z.to_nat (end_pos + 150))
      with (Z.to_nat end_pos + 150)%nat by lia.
    rewrite <- !drop_drop, Hr2.
    rewrite drop_app_le by (rewrite length_end_marker; lia).
    f_equal. }
  split; [| split].
  - rewrite Hb, Hm, Hr. by apply content_decomposed.
  - rewrite (new_content_of_found content start_pos end_pos Hs He).
    by rewrite Htail, Hb.
  - rewrite <- Htail, Hb, trailer_len_52. unfold len.
    rewrite !length_app, length_take, length_drop. unfold len in *. lia.
Qed.

(** X5: the end marker is looked for from the start marker on.  When it
    occurs only before the first start marker, the script prints that the end
    marker was not found, exits with status 1 and writes nothing. *)
Theorem X5_end_marker_only_before
    (repr : str → str) (st : state) (content : str) (start_pos : Z) :
  files st !! path = Some content →
  first_occurrence content start_marker 0 start_pos →
  (∀ j, start_pos ≤ j → ¬ occurs_at content end_marker j) →
  (script repr st).1 = Raise (SystemExit 1)
  ∧ files (script repr st).2 = files st
  ∧ stdout (script repr st).2 = stdout st ++ [msg_end_not_found].
Proof.
  intros Hf Hs Hno.
  pose proof (first_occurrence_ge _ _ _ _ Hs) as Hsp.
  assert (new_content_of content = EndMarkerNotFound) as Hn.
  { rewrite <- (first_occurrence_find content start_marker 0 start_pos)
      in Hno, Hsp by (lia || done).
    apply replace_span_no_end; [lia |].
    destruct (Z.eq_dec (find content end_marker (find content start_marker 0))
                (-1)) as [| Hne]; [done | exfalso].
    destruct (find_first content end_marker (find content start_marker 0)
                ltac:(lia) Hne) as (Hge & Hocc & _).
    by apply (Hno _ Hge). }
  destruct (script_result repr st content Hf) as (Hres & Hfiles & Hout).
  rewrite Hn in Hres, Hfiles, Hout.
  cbn [outcome_observable fst snd] in Hres, Hfiles, Hout.
  by rewrite Hres, Hfiles, Hout.
Qed.

(** ** The patched document, and the script run again *)

(** After the replacement the patched document is the document from
    [ep + 52] on, moved: the same strings occur there. *)
Lemma occurs_in_tail (content sub : str) sp ep q :
  0 ≤ sp ≤ len content → 0 ≤ ep + 52 ≤ len content → sp + 531 ≤ q →
  occurs_at (take (Z.to_nat sp) content ++ new_replacement
             ++ drop (Z.to_nat (ep + 52)) content) sub q
  ↔ occurs_at content sub (q - (sp + 531) + (ep + 52)).
Proof.
  intros Hsp Hep Hq.
  pose proof length_new_replacement as Hlr.
  assert (length (take (Z.to_nat sp) content) = Z.to_nat sp) as HlP.
  { apply length_take_le. unfold len in *. lia. }
  rewrite !occurs_at_prefix. unfold len in *.
  rewrite !length_app, HlP, Hlr, length_drop.
  rewrite drop_app_ge by lia. rewrite drop_app_ge by lia.
  rewrite drop_drop, HlP, Hlr.
  replace (Z.to_nat (ep + 52) + (Z.to_nat q - Z.to_nat sp - 531))%nat
    with (Z.to_nat (q - (sp + 531) + (ep + 52))) by lia.
  split; intros [Hr Hp]; (split; [lia | done]).
Qed.

(** X6: the start markers of the patched document are those the document
    has after the removed span, each moved with the text it is in: the
    replacement brings no start marker, alone or with the text around it. *)
Theorem X6_start_markers_after_patch
    (content : str) (start_pos end_pos q : Z) :
  first_occurrence content start_marker 0 start_pos →
  first_occurrence content end_marker start_pos end_pos →
  ∃ out, new_content_of content = Replaced out
    ∧ (occurs_at out start_marker q
       ↔ start_pos + len new_replacement ≤ q
         ∧ occurs_at content start_marker
             (q - (start_pos + len new_replacement)
              + (end_pos + trailer_len))).
Proof.
  intros Hs He. eexists. split; [by apply new_content_of_found |].
  rewrite trailer_len_52.
  replace (len new_replacement) with 531 by (by vm_compute).
  by apply start_marker_after_patch.
Qed.

(** X7: when the document has no start marker after the removed span, the
    patched document has none at all: the script run again, on the files the
    first run left, prints that the start marker was not found, exits with
    status 1 and leaves the files as they are. *)
Theorem X7_second_run_changes_nothing
    (repr : str → str) (st st2 : state) (content : str)
    (start_pos end_pos : Z) :
  files st !! path = Some content →
  first_occurrence content start_marker 0 start_pos →
  first_occurrence content end_marker start_pos end_pos →
  (∀ i, end_pos + trailer_len ≤ i → ¬ occurs_at content start_marker i) →
  files st2 = files (script repr st).2 →
  (script repr st2).1 = Raise (SystemExit 1)
  ∧ files (script repr st2).2 = files st2
  ∧ stdout (script repr st2).2 = stdout st2 ++ [msg_start_not_found].
Proof.
  intros Hf Hs He Hno Hf2.
  pose proof (first_occurrence_ge _ _ _ _ Hs) as Hsp.
  destruct (script_result repr st content Hf) as (_ & Hfiles & _).
  rewrite (new_content_of_found content start_pos end_pos Hs He) in Hfiles.
  cbn [outcome_observable fst snd] in Hfiles.
  rewrite <- Hf2 in Hfiles.
  set (out := take (Z.to_nat start_pos) content ++ new_replacement
              ++ drop (Z.to_nat (end_pos + 52)) content) in *.
  assert (files st2 !! path = Some out) as Hout.
  { rewrite Hfiles. apply lookup_insert_eq. }
  assert (absent out start_marker) as Habs.
  { intros q Hq.
    apply (start_marker_after_patch content start_pos end_pos q Hs He)
      in Hq as [Hge Hocc].
    eapply Hno; [| exact Hocc]. rewrite trailer_len_52. lia. }
  destruct (script_result repr st2 out Hout) as (Hres2 & Hfiles2 & Hout2).
  rewrite (new_content_of_start_absent out Habs) in Hres2, Hfiles2, Hout2.
  cbn [outcome_observable fst snd] in Hres2, Hfiles2, Hout2.
  by rewrite Hres2, Hfiles2, Hout2.
Qed.

(** X8: whatever the state and however the run ends, no file other than
    [client/pages/Index.tsx] is created, removed or changed. *)
Theorem X8_other_files_untouched
    (repr : str → str) (st : state) (p : string) :
  p ≠ path → files (script repr st).2 !! p = files st !! p.
Proof.
  intros Hp. destruct (files st !! path) as [content |] eqn:Hf.
  - destruct (script_result repr st content Hf) as (_ & Hfiles & _).
    rewrite Hfiles. destruct (new_content_of content);
      cbn [outcome_observable fst snd]; [done | done |].
    by apply lookup_insert_ne.
  - pose proof (script_missing repr st Hf) as Hrun.
    unfold observable in Hrun. injection Hrun as _ Hfiles _.
    by rewrite Hfiles.
Qed.

(** X9: a document with a second marked block after the first.  The script
    run on its own output patches the second block: the two runs together
    give the text before the first start marker, the replacement, the text
    from the first splice end to the second start marker, the replacement
    again, and the text from the second splice end on. *)
Theorem X9_second_run_patches_next_block
    (content : str) (sp1 ep1 sp2 ep2 : Z) :
  first_occurrence content start_marker 0 sp1 →
  first_occurrence content end_marker sp1 ep1 →
  first_occurrence content start_marker (ep1 + trailer_len) sp2 →
  first_occurrence content end_marker sp2 ep2 →
  ∃ out, new_content_of content = Replaced out
    ∧ new_content_of out
      = Replaced (slice_to content sp1 ++ new_replacement
                  ++ slice content (ep1 + trailer_len) sp2
                  ++ new_replacement
                  ++ slice_from content (ep2 + trailer_len)).
Proof.
  intros Hs1 He1 Hs2 He2. rewrite trailer_len_52 in *.
  pose proof (first_occurrence_ge _ _ _ _ Hs1) as Hsp1.
  pose proof (first_occurrence_ge _ _ _ _ He1) as Hep1.
  pose proof (first_occurrence_ge _ _ _ _ Hs2) as Hsp2.
  pose proof (first_occurrence_ge _ _ _ _ He2) as Hep2.
  pose proof length_new_replacement as Hlr.
  eexists. split; [by apply new_content_of_found |].
  set (out := take (Z.to_nat sp1) content ++ new_replacement
              ++ drop (Z.to_nat (ep1 + 52)) content).
  assert (length (take (Z.to_nat sp1) content) = Z.to_nat sp1) as HlP.
  { apply length_take_le. unfold len in *. lia. }
  set (shift := sp1 + 531 - (ep1 + 52)).
  assert (first_occurrence out start_marker 0 (sp2 + shift)) as Hs2'.
  { destruct Hs2 as (Hge & Hocc & Hmin). split; [unfold shift; lia |]. split.
    - apply (start_marker_after_patch content sp1 ep1 _ Hs1 He1).
      split; [unfold shift; lia |].
      by replace (sp2 + shift - (sp1 + 531) + (ep1 + 52)) with sp2
        by (unfold shift; lia).
    - intros q Hq Hoq.
      apply (start_marker_after_patch content sp1 ep1 _ Hs1 He1)
        in Hoq as [Hqge Hoq].
      eapply Hmin; [| exact Hoq]. unfold shift in *. lia. }
  assert (first_occurrence out end_marker (sp2 + shift) (ep2 + shift)) as He2'.
  { destruct He2 as (Hge & Hocc & Hmin). split; [lia |]. split.
    - apply occurs_in_tail; [lia | lia | unfold shift; lia |].
      by replace (ep2 + shift - (sp1 + 531) + (ep1 + 52)) with ep2
        by (unfold shift; lia).
    - intros q Hq Hoq.
      apply occurs_in_tail in Hoq; [| lia | lia | unfold shift in *; lia].
      eapply Hmin; [| exact Hoq]. unfold shift in *. lia. }
  rewrite (new_content_of_found out _ _ Hs2' He2').
  rewrite slice_to_take, slice_from_drop by lia.
  unfold slice. rewrite !clamp_index_in_range by lia.
  f_equal. unfold out.
  rewrite take_app_ge by lia. rewrite take_app_ge by lia.
  rewrite drop_app_ge by lia. rewrite drop_app_ge by lia.
  rewrite HlP, Hlr, drop_drop.
  replace (Z.to_nat (sp2 + shift) - Z.to_nat sp1 - 531)%nat
    with (Z.to_nat (sp2 - (ep1 + 52))) by (unfold shift; lia).
  replace (Z.to_nat (ep1 + 52)
           + (Z.to_nat (ep2 + shift + 52) - Z.to_nat sp1 - 531))%nat
    with (Z.to_nat (ep2 + 52)) by (unfold shift; lia).
  by rewrite <- !app_assoc.
Qed.

(** The end marker, cut where the script cuts it. *)
Lemma end_marker_parts :
  take 24 end_marker = closing_literal
  ∧ take 28 (drop 24 end_marker) = trailer_literal.
Proof. by vm_compute. Qed.

(** X10: the text the script removes is [old_content] followed by the
    trailer literal, so the document is the text before the start marker,
    [old_content], the trailer literal and the tail that is kept;
    [old_content] begins with the start marker and ends with the closing
    literal. *)
Theorem X10_removed_span (content : str) (start_pos end_pos : Z) :
  first_occurrence content start_marker 0 start_pos →
  first_occurrence content end_marker start_pos end_pos →
  content = slice_to content start_pos ++ old_content_of content
            ++ trailer_literal
            ++ slice_from content (end_pos + trailer_len)
  ∧ start_marker `prefix_of` old_content_of content
  ∧ closing_literal `suffix_of` old_content_of content.
Proof.
  intros Hs He.
  pose proof (first_occurrence_ge _ _ _ _ Hs) as Hsp.
  pose proof (first_occurrence_ge _ _ _ _ He) as Hep.
  assert (end_pos + 150 ≤ len content) as Hin.
  { destruct He as (_ & (_ & Hin & _) & _). by rewrite len_end_marker in Hin. }
  pose proof (markers_apart content start_pos end_pos) as Hap.
  rewrite len_start_marker in Hap.
  specialize (Hap ltac:(by destruct Hs as (_ & ? & _))
                  ltac:(by destruct He as (_ & ? & _)) ltac:(lia)).
  pose proof length_end_marker as Hle. pose proof length_start_marker as Hls.
  destruct end_marker_parts as [Hc Ht].
  assert (old_content_of content
          = take (Z.to_nat (end_pos + 24 - start_pos))
              (drop (Z.to_nat start_pos) content)) as Hold.
  { unfold old_content_of.
    rewrite (first_occurrence_find content start_marker 0 start_pos)
      by (lia || done).
    rewrite (first_occurrence_find content end_marker start_pos end_pos)
      by (lia || done).
    rewrite len_closing_literal. unfold slice.
    by rewrite !clamp_index_in_range by lia. }
  destruct Hs as (_ & Hso & _). destruct He as (_ & Heo & _).
  apply occurs_at_prefix in Hso as [_ [r1 Hr1]].
  apply occurs_at_prefix in Heo as [_ [r2 Hr2]].
  split; [| split].
  - rewrite trailer_len_52, slice_to_take, slice_from_drop by lia.
    rewrite Hold.
    assert (trailer_literal
            = take 28 (drop (Z.to_nat (end_pos + 24)) content)) as ->.
    { replace (Z.to_nat (end_pos + 24)) with (Z.to_nat end_pos + 24)%nat
        by lia.
      rewrite <- drop_drop, Hr2, drop_app_le by lia.
      rewrite take_app_le by (rewrite length_drop; lia). done. }
    replace (Z.to_nat (end_pos + 52))
      with (Z.to_nat (end_pos + 24) + 28)%nat by lia.
    rewrite <- (drop_drop content 28), take_drop.
    replace (Z.to_nat (end_pos + 24))
      with (Z.to_nat start_pos + Z.to_nat (end_pos + 24 - start_pos))%nat
      by lia.
    rewrite <- (drop_drop content), take_drop. by rewrite take_drop.
  - rewrite Hold, Hr1. rewrite take_app_ge by lia.
    by apply prefix_app_r.
  - rewrite Hold.
    replace (Z.to_nat (end_pos + 24 - start_pos))
      with (Z.to_nat (end_pos - start_pos) + 24)%nat by lia.
    rewrite <- take_take_drop, drop_drop.
    replace (Z.to_nat start_pos + Z.to_nat (end_pos - start_pos))%nat
      with (Z.to_nat end_pos) by lia.
    rewrite Hr2, take_app_le, Hc by lia.
    by apply suffix_app_r.
Qed.

(** X11: the exit status is 0 or 1, and it is 0 exactly when the file exists,
    both markers are found in it and the file now holds the patched
    document. *)
Theorem X11_exit_status (repr : str → str) (st : state) :
  (exit_status (script repr st).1 = 0 ∨ exit_status (script repr st).1 = 1)
  ∧ (exit_status (script repr st).1 = 0
     ↔ ∃ content out, files st !! path = Some content
         ∧ new_content_of content = Replaced out
         ∧ files (script repr st).2 !! path = Some out).
Proof.
  destruct (files st !! path) as [content |] eqn:Hf.
  - destruct (script_result repr st content Hf) as (Hres & Hfiles & _).
    rewrite Hres, Hfiles.
    destruct (new_content_of content) as [| | out] eqn:Hn;
      cbn [outcome_observable fst snd exit_status].
    + split; [by right |]. split; [done |].
      intros (c & o & Hc & Ho & _). congruence.
    + split; [by right |]. split; [done |].
      intros (c & o & Hc & Ho & _). congruence.
    + split; [by left |]. split; [| done].
      intros _. exists content, out. by rewrite lookup_insert_eq.
  - pose proof (script_missing repr st Hf) as Hrun.
    unfold observable in Hrun. injection Hrun as Hres _ _.
    rewrite Hres. cbn [exit_status].
    split; [by right |]. split; [done |].
    intros (c & o & Hc & _). congruence.
Qed.

(** ** These properties at concrete documents *)

(** X1 where there is no file at all. *)
Lemma X1_missing_file_witness :
  (script id (State ∅ ∅ [])).1 = Raise (FileNotFoundError path)
  ∧ exit_status (script id (State ∅ ∅ [])).1 = 1
  ∧ files (script id (State ∅ ∅ [])).2 = files (State ∅ ∅ [])
  ∧ stdout (script id (State ∅ ∅ [])).2 = stdout (State ∅ ∅ []).
Proof.
  apply (X1_missing_file id (State ∅ ∅ [])). reflexivity.
Defined.

(** X2 on the two markers one after the other. *)
Lemma X2_no_overlap_witness : 0 + len start_marker ≤ 264.
Proof.
  apply (X2_markers_do_not_overlap doc_two_markers 0 264).
  - repeat split; by vm_compute.
  - repeat split; by vm_compute.
  - lia.
Defined.

(** X3 on two marked blocks in a row. *)
Lemma X3_success_witness :
  (script id (state_with doc_two_blocks)).1 = Ok tt
  ∧ exit_status (script id (state_with doc_two_blocks)).1 = 0
  ∧ stdout (script id (state_with doc_two_blocks)).2
    = stdout (state_with doc_two_blocks)
      ++ [msg_found; id (slice_to start_marker 200 ++ lit "...");
          msg_completed].
Proof.
  apply (X3_success_output id (state_with doc_two_blocks) doc_two_blocks
           0 267).
  - apply files_state_with.
  - apply find_first_eq; [lia | lia | by vm_compute].
  - apply find_first_eq; [lia | lia | by vm_compute].
Defined.

(** X4 on two marked blocks in a row. *)
Lemma X4_parts_witness :
  let before := slice_to doc_two_blocks 0 in
  let between := slice doc_two_blocks (0 + len start_marker) 267 in
  let rest := slice_from doc_two_blocks (267 + len end_marker) in
  doc_two_blocks = before ++ start_marker ++ between ++ end_marker ++ rest
  ∧ new_content_of doc_two_blocks
    = Replaced (before ++ new_replacement ++ drop 52 end_marker ++ rest)
  ∧ len (before ++ new_replacement ++ drop 52 end_marker ++ rest)
    = len doc_two_blocks - (267 + trailer_len - 0) + len new_replacement.
Proof.
  apply (X4_patch_by_parts doc_two_blocks 0 267).
  - apply find_first_eq; [lia | lia | by vm_compute].
  - apply find_first_eq; [lia | lia | by vm_compute].
Defined.

(** X5 on a file that holds the end marker and then the start marker. *)
Lemma X5_end_before_witness :
  occurs_at (end_marker ++ start_marker) end_marker 0
  ∧ (script id (state_with (end_marker ++ start_marker))).1
    = Raise (SystemExit 1)
  ∧ files (script id (state_with (end_marker ++ start_marker))).2
    = files (state_with (end_marker ++ start_marker))
  ∧ stdout (script id (state_with (end_marker ++ start_marker))).2
    = stdout (state_with (end_marker ++ start_marker))
      ++ [msg_end_not_found].
Proof.
  split; [repeat split; by vm_compute |].
  apply (X5_end_marker_only_before id
           (state_with (end_marker ++ start_marker))
           (end_marker ++ start_marker) 150).
  - apply files_state_with.
  - apply find_first_eq; [lia | lia | by vm_compute].
  - apply find_none; [lia | by vm_compute].
Defined.

(** X6 on two marked blocks in a row: the second start marker, at 417 in the
    document, is at 629 in the patched one. *)
Lemma X6_after_patch_witness :
  ∃ out, new_content_of doc_two_blocks = Replaced out
    ∧ (occurs_at out start_marker 629
       ↔ 0 + len new_replacement ≤ 629
         ∧ occurs_at doc_two_blocks start_marker
             (629 - (0 + len new_replacement) + (267 + trailer_len))).
Proof.
  apply (X6_start_markers_after_patch doc_two_blocks 0 267 629).
  - apply find_first_eq; [lia | lia | by vm_compute].
  - apply find_first_eq; [lia | lia | by vm_compute].
Defined.

(** X7 on the two markers one after the other: the second run starts from
    the state the first one left. *)
Lemma X7_second_run_witness :
  (script id (script id (state_with doc_two_markers)).2).1
  = Raise (SystemExit 1)
  ∧ files (script id (script id (state_with doc_two_markers)).2).2
    = files (script id (state_with doc_two_markers)).2
  ∧ stdout (script id (script id (state_with doc_two_markers)).2).2
    = stdout (script id (state_with doc_two_markers)).2
      ++ [msg_start_not_found].
Proof.
  apply (X7_second_run_changes_nothing id (state_with doc_two_markers)
           (script id (state_with doc_two_markers)).2 doc_two_markers 0 264).
  - apply files_state_with.
  - apply find_first_eq; [lia | lia | by vm_compute].
  - apply find_first_eq; [lia | lia | by vm_compute].
  - apply find_none; [by vm_compute | by vm_compute].
  - reflexivity.
Defined.

(** X8 for another file, on two marked blocks in a row. *)
Lemma X8_other_files_witness :
  files (script id (state_with doc_two_blocks)).2 !! "README.md"
  = files (state_with doc_two_blocks) !! "README.md".
Proof.
  apply (X8_other_files_untouched id (state_with doc_two_blocks) "README.md").
  discriminate.
Defined.

(** X9 on two marked blocks in a row. *)
Lemma X9_two_runs_witness :
  ∃ out, new_content_of doc_two_blocks = Replaced out
    ∧ new_content_of out
      = Replaced (slice_to doc_two_blocks 0 ++ new_replacement
                  ++ slice doc_two_blocks (267 + trailer_len) 417
                  ++ new_replacement
                  ++ slice_from doc_two_blocks (684 + trailer_len)).
Proof.
  apply (X9_second_run_patches_next_block doc_two_blocks 0 267 417 684).
  - apply find_first_eq; [lia | lia | by vm_compute].
  - apply find_first_eq; [lia | lia | by vm_compute].
  - apply find_first_eq; [by vm_compute | lia | by vm_compute].
  - apply find_first_eq; [lia | lia | by vm_compute].
Defined.

(** X10 on two marked blocks in a row. *)
Lemma X10_removed_span_witness :
  doc_two_blocks
  = slice_to doc_two_blocks 0 ++ old_content_of doc_two_blocks
    ++ trailer_literal ++ slice_from doc_two_blocks (267 + trailer_len)
  ∧ start_marker `prefix_of` old_content_of doc_two_blocks
  ∧ closing_literal `suffix_of` old_content_of doc_two_blocks.
Proof.
  apply (X10_removed_span doc_two_blocks 0 267).
  - apply find_first_eq; [lia | lia | by vm_compute].
  - apply find_first_eq; [lia | lia | by vm_compute].
Defined.
